(** * Bundler RPC contract: the type declarations of [src/bundler/utils/types.ts]

    The file under verification declares no functions: it is the schema of
    the bundler JSON-RPC surface, written as TypeScript types.  The
    declarations are embedded as values of a small universe [ty] of
    TypeScript type expressions; each exported alias of the source becomes a
    Rocq definition of the same name.  What a declaration means is given by
    [has_type], the assignability of a run-time JavaScript value to a type,
    so that statements such as "the type admits a response without
    callGasLimit" are theorems about [has_type]. *)

From Stdlib Require Import String Ascii List Bool ZArith Lia.
Import ListNotations.
Set Warnings "-register-all".
Open Scope string_scope.
Open Scope bool_scope.

(** ** JavaScript values crossing the RPC boundary *)

(** Numbers are restricted to integer values (error codes, request ids);
    nothing below depends on fractional numbers. *)
Inductive value : Type :=
| VUndefined
| VNull
| VBool (b : bool)
| VNumber (n : Z)
| VBigint (n : Z)
| VString (s : string)
| VArray (items : list value)
| VObject (props : list (string * value)).

Definition is_undefined (v : value) : bool :=
  match v with VUndefined => true | _ => false end.

(** [get k o] is the property read [o[k]]; [None] when the object has no own
    property [k]. *)
Fixpoint get (k : string) (props : list (string * value)) : option value :=
  match props with
  | [] => None
  | (k', v) :: rest => if String.eqb k k' then Some v else get k rest
  end.

Definition mem (k : string) (ks : list string) : bool :=
  existsb (String.eqb k) ks.

(** [without ks o] is the object [o] with the properties named in [ks]
    left out. *)
Definition without (ks : list string) (props : list (string * value))
  : list (string * value) :=
  filter (fun kv => negb (mem (fst kv) ks)) props.

(** ** TypeScript type expressions *)

(** A property declaration [name: T] or [name?: T] is the triple
    [(name, optional, T)]. *)
Inductive ty : Type :=
| TAny
| TUndefined
| TString
| TNumber
| TBigint
| TLiteral (s : string)              (* a string literal type "..." *)
| TTemplate (prefix : string)        (* `prefix${string}` *)
| TUnion (a b : ty)                  (* a | b *)
| TIntersection (a b : ty)           (* a & b *)
| TArray (elem : ty)                 (* T[] and Array<T> *)
| TObject (fields : list (string * bool * ty))
| TIndexed (key : ty) (elem : ty).   (* { [x: K]: T } *)

Definition field : Type := (string * bool * ty)%type.
Definition fname (f : field) : string := fst (fst f).
Definition foptional (f : field) : bool := snd (fst f).
Definition ftype (f : field) : ty := snd f.

(** Assignability of a value to a type, under [strictNullChecks].  A
    required property must be present; an optional one may be absent or
    hold [undefined].  Object types are structural: properties that the
    type does not declare are allowed. *)
Fixpoint has_type (v : value) (t : ty) {struct t} : bool :=
  match t with
  | TAny => true
  | TUndefined => is_undefined v
  | TString => match v with VString _ => true | _ => false end
  | TNumber => match v with VNumber _ => true | _ => false end
  | TBigint => match v with VBigint _ => true | _ => false end
  | TLiteral l => match v with VString s => String.eqb s l | _ => false end
  | TTemplate p => match v with VString s => String.prefix p s | _ => false end
  | TUnion a b => has_type v a || has_type v b
  | TIntersection a b => has_type v a && has_type v b
  | TArray e =>
      match v with
      | VArray items => forallb (fun x => has_type x e) items
      | _ => false
      end
  | TObject fs =>
      match v with
      | VObject props =>
          (fix fields_ok (fs : list (string * bool * ty)) : bool :=
             match fs with
             | [] => true
             | (name, opt, ft) :: rest =>
                 match get name props with
                 | None => opt
                 | Some x => has_type x ft || (opt && is_undefined x)
                 end && fields_ok rest
             end) fs
      | _ => false
      end
  | TIndexed k e =>
      match v with
      | VObject props =>
          forallb (fun kv => negb (has_type (VString (fst kv)) k)
                             || has_type (snd kv) e) props
      | _ => false
      end
  end.

(** The declared properties of an object type. *)
Definition fields_of (t : ty) : list field :=
  match t with TObject fs => fs | _ => [] end.

(** One declared property checked against an object. *)
Definition field_ok (props : list (string * value)) (f : field) : bool :=
  match get (fname f) props with
  | None => foptional f
  | Some x => has_type x (ftype f) || (foptional f && is_undefined x)
  end.

(** ** Utility types *)

(** [Omit<T, K>] and [Pick<T, K>] of the TypeScript library, on the
    property list of an object type. *)
Definition Omit (fs : list field) (K : list string) : list field :=
  filter (fun f => negb (mem (fname f) K)) fs.

Definition Pick (fs : list field) (K : list string) : list field :=
  filter (fun f => mem (fname f) K) fs.

(** viem's [ExactPartial<T> = { [k in keyof T]?: T[k] | undefined }]. *)
Definition ExactPartial (fs : list field) : list field :=
  map (fun f => (fname f, true, TUnion (ftype f) TUndefined)) fs.

(** viem's [PartialBy<T, K> = Omit<T, K> & ExactPartial<Pick<T, K>>]. *)
Definition PartialBy (fs : list field) (K : list string) : ty :=
  TIntersection (TObject (Omit fs K)) (TObject (ExactPartial (Pick fs K))).

(** viem's [Hex], [Hash] and [Address] are all the template literal type
    [`0x${string}`]. *)
Definition Hex : ty := TTemplate "0x".
Definition Hash : ty := TTemplate "0x".
Definition Address : ty := TTemplate "0x".

(** ** Method signatures *)

(** A labelled tuple element [name: T] or [name?: T]. *)
Record param : Type := mkParam {
  pname : string;
  poptional : bool;
  ptype : ty
}.

Record method : Type := mkMethod {
  Method : string;
  Parameters : list param;
  ReturnType : ty
}.

(** A positional argument list against a labelled tuple: optional elements
    may be missing at the end or hold [undefined]. *)
Fixpoint accepts (ps : list param) (args : list value) : bool :=
  match ps, args with
  | [], [] => true
  | [], _ :: _ => false
  | p :: ps', [] => poptional p && accepts ps' []
  | p :: ps', a :: args' =>
      (has_type a (ptype p) || (poptional p && is_undefined a))
      && accepts ps' args'
  end.

Definition lookup_method (name : string) (schema : list method)
  : option method :=
  find (fun m => String.eqb (Method m) name) schema.

(** A decimal numeric string: one or more of the digits 0-9. *)
Definition is_digit (c : ascii) : bool :=
  let n := nat_of_ascii c in (48 <=? n)%nat && (n <=? 57)%nat.

Fixpoint all_digits (s : string) : bool :=
  match s with
  | EmptyString => true
  | String c rest => is_digit c && all_digits rest
  end.

Definition is_decimal (s : string) : bool :=
  match s with
  | EmptyString => false
  | _ => all_digits s
  end.

(** A hexadecimal numeral: 0x followed by one or more of the digits 0-9,
    a-f and A-F. *)
Definition is_hex_digit (c : ascii) : bool :=
  let n := nat_of_ascii c in
  ((48 <=? n)%nat && (n <=? 57)%nat)
  || ((97 <=? n)%nat && (n <=? 102)%nat)
  || ((65 <=? n)%nat && (n <=? 70)%nat).

Fixpoint all_hex_digits (s : string) : bool :=
  match s with
  | EmptyString => true
  | String c rest => is_hex_digit c && all_hex_digits rest
  end.

Definition is_hex (s : string) : bool :=
  match s with
  | String "0" (String "x" (String c rest)) => all_hex_digits (String c rest)
  | _ => false
  end.

(** ** The declarations of [types.ts] *)

Definition StateOverrides : ty :=
  TIndexed TString
    (TObject
       [ ("balance", true, TUnion TBigint TUndefined);
         ("nonce", true, TUnion TBigint (TUnion TNumber TUndefined));
         ("code", true, TUnion Hex TUndefined);
         ("state", true, TIndexed Hex Hex);
         ("stateDiff", true, TIndexed Hex Hex) ]).

Definition TStatus : ty := TUnion (TLiteral "success") (TLiteral "reverted").

Definition UserOpReceipt : ty :=
  TObject
    [ ("userOpHash", false, TString);
      ("entryPoint", false, TString);
      ("paymaster", false, TString);
      ("actualGasCost", false, Hex);
      ("actualGasUsed", false, Hex);
      ("success", false, TUnion (TLiteral "true") (TLiteral "false"));
      ("reason", false, TString);
      ("logs", false, TArray TAny);
      ("receipt", false, TAny) ].

Definition GasFeeValues : ty :=
  TObject
    [ ("maxPriorityFeePerGas", false, TString);
      ("maxFeePerGas", false, TString) ].

Definition GetGasFeeValuesReturnType : ty := GasFeeValues.

Definition JsonRpcError : ty :=
  TObject
    [ ("code", false, TString);
      ("message", false, TString);
      ("data", false, TAny) ].

Definition SendUserOpResponse : ty :=
  TObject
    [ ("jsonrpc", false, TString);
      ("id", false, TNumber);
      ("result", false, TString);
      ("error", true, JsonRpcError) ].

Definition UserOpStatus : ty :=
  TObject
    [ ("state", false, TString);
      ("transactionHash", true, TString);
      ("userOperationReceipt", true, UserOpReceipt) ].

(** The return shape of [eth_estimateUserOperationGas], written inline in
    the schema. *)
Definition EstimateGasReturn : ty :=
  TObject
    [ ("preVerificationGas", false, TString);
      ("verificationGasLimit", false, TString);
      ("callGasLimit", true, TString);
      ("maxPriorityFeePerGas", false, TString);
      ("maxFeePerGas", false, TString) ].

(** The keys that [eth_estimateUserOperationGas] makes optional. *)
Definition EstimateOptionalKeys : list string :=
  [ "callGasLimit"; "preVerificationGas"; "verificationGasLimit" ].

(** The inclusion metadata that [eth_getUserOperationByHash] adds to the
    user operation. *)
Definition InclusionFields (entryPoint : ty) : list field :=
  [ ("entryPoint", false, entryPoint);
    ("transactionHash", false, Hash);
    ("blockHash", false, Hash);
    ("blockNumber", false, Hex) ].

Section Schema.

(** [UserOperationStruct] is imported from [../../accounts] and
    [ENTRYPOINT_ADDRESS_V06_TYPE] from [../../accounts/utils/types]; neither
    declaration is part of the file.  [UserOperationStruct] is an object
    type, taken with an arbitrary property list; the entry point address is
    an arbitrary string. *)
Variable UserOperationFields : list field.
Variable ENTRYPOINT_ADDRESS_V06 : string.

Definition UserOperationStruct : ty := TObject UserOperationFields.

(** Modelled from the spec: the declaration of [ENTRYPOINT_ADDRESS_V06_TYPE]
    is missing; the spec describes the entry point address as "a fixed,
    versioned contract address", an opaque tag passed through unchanged.
    It is the literal type of one fixed address. *)
Definition ENTRYPOINT_ADDRESS_V06_TYPE : ty := TLiteral ENTRYPOINT_ADDRESS_V06.

Definition EstimateUserOperationGasParameters : ty :=
  TObject [ ("userOperation", false, UserOperationStruct) ].

Definition BundlerRpcSchema : list method :=
  [ {| Method := "eth_sendUserOperation";
       Parameters :=
         [ mkParam "userOperation" false UserOperationStruct;
           mkParam "entryPointAddress" false ENTRYPOINT_ADDRESS_V06_TYPE ];
       ReturnType := Hash |};
    {| Method := "eth_estimateUserOperationGas";
       Parameters :=
         [ mkParam "userOperation" false
             (PartialBy UserOperationFields EstimateOptionalKeys);
           mkParam "entryPointAddress" false ENTRYPOINT_ADDRESS_V06_TYPE;
           mkParam "stateOverrides" true StateOverrides ];
       ReturnType := EstimateGasReturn |};
    {| Method := "eth_supportedEntryPoints";
       Parameters := [];
       ReturnType := TArray Address |};
    {| Method := "eth_chainId";
       Parameters := [];
       ReturnType := Hex |};
    {| Method := "eth_getUserOperationByHash";
       Parameters := [ mkParam "hash" false Hash ];
       ReturnType :=
         TIntersection UserOperationStruct
           (TObject (InclusionFields ENTRYPOINT_ADDRESS_V06_TYPE)) |};
    {| Method := "eth_getUserOperationReceipt";
       Parameters := [ mkParam "hash" false Hash ];
       ReturnType := UserOpReceipt |};
    {| Method := "biconomy_getGasFeeValues";
       Parameters := [];
       ReturnType := GasFeeValues |};
    {| Method := "biconomy_getUserOperationStatus";
       Parameters := [ mkParam "userOpHash" false Hash ];
       ReturnType := UserOpStatus |} ].

(** The declared return type of a method of the schema, [TUndefined] for a
    name the schema does not list. *)
Definition return_type (name : string) : ty :=
  match lookup_method name BundlerRpcSchema with
  | Some m => ReturnType m
  | None => TUndefined
  end.

Definition parameters (name : string) : list param :=
  match lookup_method name BundlerRpcSchema with
  | Some m => Parameters m
  | None => []
  end.

End Schema.

(** Modelled from the spec: the declaration of [UserOperationStruct] is
    missing; the spec lists as required fields "sender address, nonce, call
    data, gas limits (call/verification/pre-verification), fee caps (max
    fee, max priority fee), and an opaque signature blob".  This instance is
    used for concrete examples only; the theorems hold for every property
    list. *)
Definition UserOperationFields_spec : list field :=
  [ ("sender", false, Address);
    ("nonce", false, TBigint);
    ("callData", false, Hex);
    ("callGasLimit", false, TBigint);
    ("verificationGasLimit", false, TBigint);
    ("preVerificationGas", false, TBigint);
    ("maxFeePerGas", false, TBigint);
    ("maxPriorityFeePerGas", false, TBigint);
    ("signature", false, Hex) ].

(** The version 0.6 entry point, as the concrete address of the examples. *)
Definition ENTRYPOINT_ADDRESS_V06_example : string :=
  "0x5FF137D4b0FDCD49DcA30c7CF57E578a026d2789".

(** ** Concrete payloads *)

Definition example_user_operation : list (string * value) :=
  [ ("sender", VString "0xd8dA6BF26964aF9D7eEd9e03E53415D37aA96045");
    ("nonce", VBigint 0%Z);
    ("callData", VString "0x");
    ("callGasLimit", VBigint 50000%Z);
    ("verificationGasLimit", VBigint 100000%Z);
    ("preVerificationGas", VBigint 21000%Z);
    ("maxFeePerGas", VBigint 1000000000%Z);
    ("maxPriorityFeePerGas", VBigint 1000000000%Z);
    ("signature", VString "0x") ].

(** A receipt with a chosen success flag and reason. *)
Definition example_receipt (success reason : string) : value :=
  VObject
    [ ("userOpHash", VString "0x01");
      ("entryPoint", VString ENTRYPOINT_ADDRESS_V06_example);
      ("paymaster", VString EmptyString);
      ("actualGasCost", VString "0x2386f26fc10000");
      ("actualGasUsed", VString "0x5208");
      ("success", VString success);
      ("reason", VString reason);
      ("logs", VArray []);
      ("receipt", VObject []) ].

(** A receipt with chosen gas quantities. *)
Definition receipt_with_gas (actualGasCost actualGasUsed : string) : value :=
  VObject
    [ ("userOpHash", VString "0x01");
      ("entryPoint", VString ENTRYPOINT_ADDRESS_V06_example);
      ("paymaster", VString EmptyString);
      ("actualGasCost", VString actualGasCost);
      ("actualGasUsed", VString actualGasUsed);
      ("success", VString "true");
      ("reason", VString EmptyString);
      ("logs", VArray []);
      ("receipt", VObject []) ].

(** A gas estimate whose strings are no numerals, and fee values written
    in hexadecimal. *)
Definition estimate_without_numerals : value :=
  VObject
    [ ("preVerificationGas", VString EmptyString);
      ("verificationGasLimit", VString "unknown");
      ("maxPriorityFeePerGas", VString "unknown");
      ("maxFeePerGas", VString "unknown") ].

Definition fee_values_in_hex : value :=
  VObject
    [ ("maxPriorityFeePerGas", VString "0x3b9aca00");
      ("maxFeePerGas", VString "0x3b9aca00") ].

(** The JSON-RPC "invalid params" error, with its numeric code. *)
Definition error_with_numeric_code : value :=
  VObject
    [ ("code", VNumber (-32602)%Z);
      ("message", VString "Invalid params");
      ("data", VNull) ].

Definition error_with_string_code : value :=
  VObject
    [ ("code", VString "-32602");
      ("message", VString "Invalid params");
      ("data", VNull) ].

(** A response that carries a result together with an error, and a failed
    response that carries the error alone. *)
Definition response_with_result_and_error : value :=
  VObject
    [ ("jsonrpc", VString "2.0");
      ("id", VNumber 1%Z);
      ("result", VString "0x01");
      ("error", error_with_string_code) ].

Definition response_with_error_only : value :=
  VObject
    [ ("jsonrpc", VString "2.0");
      ("id", VNumber 1%Z);
      ("error", error_with_string_code) ].

(** ** JavaScript expressions used by the client functions *)

(** [prop k o] is the property read [o.k] on an object: [undefined] when
    the property is missing. *)
Definition prop (k : string) (props : list (string * value)) : value :=
  match get k props with
  | Some v => v
  | None => VUndefined
  end.

(** [get_prop v k] is [v.k] for a value that is neither [null] nor
    [undefined]; none of the properties read below exists on a primitive or
    on an array. *)
Definition get_prop (v : value) (k : string) : value :=
  match v with
  | VObject props => prop k props
  | _ => VUndefined
  end.

Definition is_nullish (v : value) : bool :=
  match v with
  | VUndefined | VNull => true
  | _ => false
  end.

(** [a ?? b]. *)
Definition nullish_coalesce (a b : value) : value :=
  if is_nullish a then b else a.

(** [v?.k]. *)
Definition optional_chain (v : value) (k : string) : value :=
  if is_nullish v then VUndefined else get_prop v k.

(** The truth value of a condition [if (v)]. *)
Definition truthy (v : value) : bool :=
  match v with
  | VUndefined | VNull => false
  | VBool b => b
  | VNumber n | VBigint n => negb (Z.eqb n 0)
  | VString s => negb (String.eqb s EmptyString)
  | VArray _ | VObject _ => true
  end.

(** A destructured property with a default, [const { k = d } = o]: the
    default stands in when the property is missing or [undefined], and only
    then. *)
Definition prop_or (k : string) (props : list (string * value))
  (default : value) : value :=
  match prop k props with
  | VUndefined => default
  | v => v
  end.

(** [{ ...o, k: v }]: the property is overwritten in place when the object
    has it, and added at the end otherwise. *)
Fixpoint set (k : string) (v : value) (props : list (string * value))
  : list (string * value) :=
  match props with
  | [] => [ (k, v) ]
  | (k', v') :: rest =>
      if String.eqb k k' then (k, v) :: rest else (k', v') :: set k v rest
  end.

(** viem's [parseAccount]: an address given as a string becomes a JSON-RPC
    account, anything else is returned as it is. *)
Definition parseAccount (account : value) : value :=
  match account with
  | VString address =>
      VObject [ ("address", VString address); ("type", VString "json-rpc") ]
  | _ => account
  end.

(** ** Calls to collaborators, and exceptions *)

Inductive exn : Type :=
| Error (message : string)
| TypeError
| AccountNotFoundError (docsPath : string)
| Raised (reason : value).

Inductive result (A : Type) : Type :=
| Ok (a : A)
| Throw (e : exn).

Arguments Ok {A} a.
Arguments Throw {A} e.

(** One call to a function that lives outside the files at hand. *)
Record call : Type := mkCall {
  callee : string;
  arguments : list value
}.

(** A computation that calls collaborators: it extends the list of calls
    made so far and returns a value or throws. *)
Definition M (A : Type) : Type := list call -> result A * list call.

Definition ret {A : Type} (a : A) : M A := fun log => (Ok a, log).

Definition throw {A : Type} (e : exn) : M A := fun log => (Throw e, log).

Definition bind {A B : Type} (m : M A) (f : A -> M B) : M B :=
  fun log =>
    match m log with
    | (Ok a, log') => f a log'
    | (Throw e, log') => (Throw e, log')
    end.

Notation "x <- m ;; k" := (bind m (fun x => k))
  (at level 61, m at next level, right associativity).

(** A collaborator answers a call with a value or an exception; the answer
    may depend on the calls made before. *)
Definition collaborator : Type := list call -> list value -> result value.

Definition external (name : string) (f : collaborator) (args : list value)
  : M value :=
  fun log => (f log args, (log ++ [ mkCall name args ])%list).

(** [items.map(f)], from left to right, stopping at the first exception. *)
Fixpoint mapM {A B : Type} (f : A -> M B) (items : list A) : M (list B) :=
  match items with
  | [] => ret []
  | x :: rest =>
      y <- f x ;;
      ys <- mapM f rest ;;
      ret (y :: ys)
  end.

(** The functions imported by [createNexusClient.ts] and
    [uninstallModules.ts] whose code is not part of the files at hand, and
    the two addresses read from [../__contracts]. *)
Record collaborators : Type := {
  toNexusAccount : collaborator;
  createBicoBundlerClient : collaborator;
  erc7579Actions : collaborator;
  smartAccountActions : collaborator;
  extend : collaborator;
  parseModuleTypeId : collaborator;
  getAddress : collaborator;
  encodeFunctionData : collaborator;
  sendUserOperation : collaborator;
  k1ValidatorFactory_address : value;
  k1Validator_address : value
}.

(** ** [createNexusClient] *)

(** The properties that [createNexusClient] takes out of its parameters;
    the others are the rest [bundlerConfig]. *)
Definition createNexusClient_destructured : list string :=
  [ "client"; "chain"; "signer"; "index"; "key"; "name"; "accountName";
    "accountKey"; "activeValidationModule"; "factoryAddress";
    "k1ValidatorAddress"; "bundlerTransport"; "transport" ].

(** [chain = parameters.chain ?? client_?.chain]. *)
Definition resolve_chain (parameters : list (string * value)) : value :=
  prop_or "chain" parameters
    (nullish_coalesce (prop "chain" parameters)
       (optional_chain (prop "client" parameters) "chain")).

Section Clients.

Variable X : collaborators.

(** The argument of [toNexusAccount]. *)
Definition nexusAccountParameters (parameters : list (string * value))
  : value :=
  VObject
    [ ("name", prop "accountName" parameters);
      ("key", prop "accountKey" parameters);
      ("transport", prop "transport" parameters);
      ("chain", resolve_chain parameters);
      ("signer", prop "signer" parameters);
      ("index", prop_or "index" parameters (VBigint 0%Z));
      ("activeValidationModule", prop "activeValidationModule" parameters);
      ("factoryAddress",
        prop_or "factoryAddress" parameters (k1ValidatorFactory_address X));
      ("k1ValidatorAddress",
        prop_or "k1ValidatorAddress" parameters (k1Validator_address X)) ].

(** The argument of [createBicoBundlerClient]:
    [{ ...bundlerConfig, chain, key, name, account: nexusAccount,
       transport: bundlerTransport }]. *)
Definition bundlerClientConfig (parameters : list (string * value))
  (nexusAccount : value) : list (string * value) :=
  let bundlerConfig := without createNexusClient_destructured parameters in
  set "transport" (prop "bundlerTransport" parameters)
    (set "account" nexusAccount
       (set "name" (prop_or "name" parameters (VString "Nexus Client"))
          (set "key" (prop_or "key" parameters (VString "nexus client"))
             (set "chain" (resolve_chain parameters) bundlerConfig)))).

Definition createNexusClient (parameters : list (string * value))
  : M value :=
  if negb (truthy (resolve_chain parameters))
  then throw (Error "Missing chain")
  else
    nexusAccount <-
      external "toNexusAccount" (toNexusAccount X)
        [ nexusAccountParameters parameters ] ;;
    bundler <-
      external "createBicoBundlerClient" (createBicoBundlerClient X)
        [ VObject (bundlerClientConfig parameters nexusAccount) ] ;;
    erc7579 <- external "erc7579Actions" (erc7579Actions X) [] ;;
    bundler1 <- external "extend" (extend X) [ bundler; erc7579 ] ;;
    smartAccount <-
      external "smartAccountActions" (smartAccountActions X) [] ;;
    bundler_ <- external "extend" (extend X) [ bundler1; smartAccount ] ;;
    ret bundler_.

(** ** [uninstallModules] *)

(** The ABI item of [uninstallModule(uint256,address,bytes)]. *)
Definition uninstallModuleAbi : value :=
  VArray
    [ VObject
        [ ("name", VString "uninstallModule");
          ("type", VString "function");
          ("stateMutability", VString "nonpayable");
          ("inputs",
            VArray
              [ VObject [ ("type", VString "uint256");
                          ("name", VString "moduleTypeId") ];
                VObject [ ("type", VString "address");
                          ("name", VString "module") ];
                VObject [ ("type", VString "bytes");
                          ("name", VString "deInitData") ] ]);
          ("outputs", VArray []) ] ].

(** The callback of [modules.map]: the call that uninstalls one module.
    Destructuring [null] or [undefined] is a TypeError. *)
Definition uninstallCall (account : value) (module : value) : M value :=
  if is_nullish module then throw TypeError
  else
    moduleTypeId <-
      external "parseModuleTypeId" (parseModuleTypeId X)
        [ get_prop module "type" ] ;;
    address <-
      external "getAddress" (getAddress X) [ get_prop module "address" ] ;;
    data <-
      external "encodeFunctionData" (encodeFunctionData X)
        [ VObject
            [ ("abi", uninstallModuleAbi);
              ("functionName", VString "uninstallModule");
              ("args",
                VArray
                  [ moduleTypeId; address;
                    nullish_coalesce (get_prop module "data")
                      (VString "0x") ]) ] ] ;;
    ret (VObject
           [ ("to", get_prop account "address");
             ("value", VBigint 0%Z);
             ("data", data) ]).

(** [account: account_ = client.account]. *)
Definition resolve_account (client parameters : list (string * value))
  : value :=
  prop_or "account" parameters (prop "account" client).

(** The user operation request handed to [sendUserOperation]. *)
Definition uninstallRequest (parameters : list (string * value))
  (account : value) (calls : list value) : value :=
  VObject
    [ ("calls", VArray calls);
      ("maxFeePerGas", prop "maxFeePerGas" parameters);
      ("maxPriorityFeePerGas", prop "maxPriorityFeePerGas" parameters);
      ("nonce", prop "nonce" parameters);
      ("account", account) ].

(** [getAction(client, sendUserOperation, "sendUserOperation")(request)]
    is the call of [sendUserOperation] with the client and the request. *)
Definition uninstallModules (client parameters : list (string * value))
  : M value :=
  let account_ := resolve_account client parameters in
  if negb (truthy account_)
  then throw (AccountNotFoundError "/docs/actions/wallet/sendTransaction")
  else
    let account := parseAccount account_ in
    match prop "modules" parameters with
    | VArray modules =>
        calls <- mapM (uninstallCall account) modules ;;
        external "sendUserOperation" (sendUserOperation X)
          [ VObject client; uninstallRequest parameters account calls ]
    | _ => throw TypeError
    end.

End Clients.

(** ** Stand-ins for the examples *)

(** Collaborators that answer like the real ones in the simplest cases:
    [getAddress] refuses what is not 0x-prefixed, [extend] returns the
    client it is given. *)
Definition example_collaborators : collaborators :=
  {| toNexusAccount := fun _ _ =>
       Ok (VObject
             [ ("address",
                 VString "0x99F3Bc8058503960364Ef3fDBF6407C9b0BbefCc") ]);
     createBicoBundlerClient := fun _ args =>
       match args with
       | [ config ] => Ok config
       | _ => Throw TypeError
       end;
     erc7579Actions := fun _ _ => Ok (VObject []);
     smartAccountActions := fun _ _ => Ok (VObject []);
     extend := fun _ args =>
       match args with
       | client :: _ => Ok client
       | [] => Throw TypeError
       end;
     parseModuleTypeId := fun _ args =>
       match args with
       | [ VString _ ] => Ok (VBigint 1%Z)
       | _ => Throw (Error "Invalid module type")
       end;
     getAddress := fun _ args =>
       match args with
       | [ VString s ] =>
           if String.prefix "0x" s then Ok (VString s)
           else Throw (Raised (VString "InvalidAddressError"))
       | _ => Throw (Raised (VString "InvalidAddressError"))
       end;
     encodeFunctionData := fun _ _ => Ok (VString "0xa71763a8");
     sendUserOperation := fun _ _ => Ok (VString "0x01");
     k1ValidatorFactory_address :=
       VString "0x887Ca6FaFD62737D0E79A2b8Da41f0B15A864778";
     k1Validator_address :=
       VString "0x663E709f60477f07885230E213b8149a7027239B" |}.

Definition example_client : list (string * value) :=
  [ ("account",
      VObject
        [ ("address",
            VString "0x99F3Bc8058503960364Ef3fDBF6407C9b0BbefCc") ]) ].

(** Two modules, the first without data. *)
Definition example_uninstall_parameters : list (string * value) :=
  [ ("modules",
      VArray
        [ VObject
            [ ("type", VString "executor");
              ("address",
                VString "0x663E709f60477f07885230E213b8149a7027239B") ];
          VObject
            [ ("type", VString "validator");
              ("address",
                VString "0x887Ca6FaFD62737D0E79A2b8Da41f0B15A864778");
              ("data", VString "0x1234") ] ]);
    ("nonce", VBigint 7%Z) ].

(** A module whose address is none. *)
Definition failing_uninstall_parameters : list (string * value) :=
  [ ("modules",
      VArray
        [ VObject
            [ ("type", VString "executor");
              ("address", VString "not an address") ] ]) ].

Definition example_nexus_parameters : list (string * value) :=
  [ ("chain", VObject [ ("id", VNumber 84532%Z) ]);
    ("signer", VString "0xd8dA6BF26964aF9D7eEd9e03E53415D37aA96045");
    ("transport", VObject [ ("url", VString "https://rpc") ]);
    ("bundlerTransport", VObject [ ("url", VString "https://bundler") ]);
    ("paymaster", VBool true) ].

Definition example_estimate : value :=
  VObject
    [ ("preVerificationGas", VString "21000");
      ("verificationGasLimit", VString "100000");
      ("callGasLimit", VString "50000");
      ("maxPriorityFeePerGas", VString "1000000000");
      ("maxFeePerGas", VString "1000000000") ].

(** The example user operation as found by its hash. *)
Definition example_found_operation : value :=
  VObject
    (example_user_operation
     ++ [ ("entryPoint", VString ENTRYPOINT_ADDRESS_V06_example);
          ("transactionHash", VString "0x02");
          ("blockHash", VString "0x03");
          ("blockNumber", VString "0x10") ])%list.

Definition example_state_overrides : list (string * value) :=
  [ ("0xd8dA6BF26964aF9D7eEd9e03E53415D37aA96045",
      VObject
        [ ("balance", VBigint 1000000000000000000%Z);
          ("state", VObject [ ("0x00", VString "0x01") ]) ]) ].

(** A computation started with no call made yet. *)
Definition run {A : Type} (m : M A) : result A * list call := m [].

Definition called (name : string) (c : call) : bool :=
  String.eqb (callee c) name.

(** What [uninstallModules] may call before it sends: the three helpers,
    and [encodeFunctionData] only with the [uninstallModule] ABI, the
    function name and three arguments, the last of which (the
    de-initialisation data) is neither [null] nor [undefined]. *)
Definition encoding_call (c : call) : Prop :=
  callee c = "parseModuleTypeId"
  \/ callee c = "getAddress"
  \/ (callee c = "encodeFunctionData"
      /\ exists moduleTypeId address deInitData,
           arguments c
           = [ VObject
                 [ ("abi", uninstallModuleAbi);
                   ("functionName", VString "uninstallModule");
                   ("args", VArray [ moduleTypeId; address; deInitData ]) ] ]
           /\ is_nullish deInitData = false).

(** A call of [uninstallModules]' request: to the account itself, with no
    value. *)
Definition call_to_account (account : value) (c : value) : Prop :=
  get_prop c "to" = get_prop account "address"
  /\ get_prop c "value" = VBigint 0%Z.

(** The call of [encodeFunctionData] for one module, given what
    [parseModuleTypeId] and [getAddress] answered, and the three calls
    that the module takes. *)
Definition encode_call (module moduleTypeId address : value) : call :=
  mkCall "encodeFunctionData"
    [ VObject
        [ ("abi", uninstallModuleAbi);
          ("functionName", VString "uninstallModule");
          ("args",
            VArray
              [ moduleTypeId; address;
                nullish_coalesce (get_prop module "data") (VString "0x") ])
        ] ].

Definition module_calls (module moduleTypeId address : value) : list call :=
  [ mkCall "parseModuleTypeId" [ get_prop module "type" ];
    mkCall "getAddress" [ get_prop module "address" ];
    encode_call module moduleTypeId address ].

(** ** Properties of property lookup and of assignability *)

Lemma mem_In (k : string) (ks : list string) :
  mem k ks = true <-> In k ks.
Proof.
  unfold mem. rewrite existsb_exists. split.
  - intros [x [Hin Heq]]. apply String.eqb_eq in Heq. now subst.
  - intros Hin. exists k. split; [assumption | apply String.eqb_refl].
Qed.

Lemma get_without (k : string) (ks : list string) props :
  get k (without ks props) = if mem k ks then None else get k props.
Proof.
  induction props as [|[k' v] rest IH]; simpl.
  - now destruct (mem k ks).
  - destruct (mem k' ks) eqn:Hk'; simpl.
    + rewrite IH. destruct (String.eqb k k') eqn:Heq.
      * apply String.eqb_eq in Heq. subst. now rewrite Hk'.
      * reflexivity.
    + rewrite IH. destruct (String.eqb k k') eqn:Heq.
      * apply String.eqb_eq in Heq. subst. now rewrite Hk'.
      * reflexivity.
Qed.

Lemma mem_subset (k : string) (ks K : list string) :
  forallb (fun x => mem x K) ks = true -> mem k K = false -> mem k ks = false.
Proof.
  intros Hsub HK. destruct (mem k ks) eqn:Hks; [|reflexivity].
  apply mem_In in Hks. rewrite forallb_forall in Hsub.
  apply Hsub in Hks. congruence.
Qed.

(** Assignability to an object type is the conjunction of its declared
    properties, and only objects are assignable to it. *)
Lemma has_type_object props (fs : list field) :
  has_type (VObject props) (TObject fs) = forallb (field_ok props) fs.
Proof.
  induction fs as [|[[name opt] ft] rest IH]; [reflexivity|].
  simpl in *. now rewrite IH.
Qed.

Lemma has_type_intersection (v : value) (a b : ty) :
  has_type v (TIntersection a b) = has_type v a && has_type v b.
Proof. reflexivity. Qed.

Lemma has_type_object_inv (v : value) (fs : list field) :
  has_type v (TObject fs) = true ->
  exists props, v = VObject props /\ forallb (field_ok props) fs = true.
Proof.
  destruct v; simpl; try discriminate.
  intros H. exists props. split; [reflexivity|].
  now rewrite <- has_type_object.
Qed.

(** Unfolds the check of one declared property. *)
Ltac unfold_field :=
  unfold field_ok, fname, foptional, ftype in *; cbn [fst snd] in *.

(** A required property of type [string] is present and holds a string. *)
Lemma required_string props (name : string) :
  field_ok props (name, false, TString) = true ->
  exists s, get name props = Some (VString s).
Proof.
  unfold_field; simpl. destruct (get name props) as [x|]; [|discriminate].
  rewrite orb_false_r. destruct x; try discriminate. now exists s.
Qed.

Lemma prefix_0x (s : string) :
  String.prefix "0x" s = true -> exists rest, s = "0x" ++ rest.
Proof.
  destruct s as [|a [|b rest]]; cbn [String.prefix]; try discriminate.
  - destruct (ascii_dec "0" a); discriminate.
  - destruct (ascii_dec "0" a) as [<-|]; [|discriminate].
    destruct (ascii_dec "x" b) as [<-|]; [|discriminate].
    intros _. now exists rest.
Qed.

Lemma has_type_Hex_inv (v : value) :
  has_type v Hex = true -> exists rest, v = VString ("0x" ++ rest).
Proof.
  unfold Hex. destruct v; cbn [has_type]; try discriminate.
  intros H. apply prefix_0x in H as [rest Hs]. exists rest. now rewrite Hs.
Qed.

(** A required property of type [Hex] is present and 0x-prefixed. *)
Lemma required_Hex props (name : string) :
  field_ok props (name, false, Hex) = true ->
  exists rest, get name props = Some (VString ("0x" ++ rest)).
Proof.
  unfold_field.
  destruct (get name props) as [x|]; [|discriminate].
  rewrite orb_false_r. intros H.
  apply has_type_Hex_inv in H as [rest Hx]. exists rest. now rewrite Hx.
Qed.

(** No decimal numeric string is 0x-prefixed. *)
Lemma decimal_not_0x (s : string) :
  is_decimal s = true -> String.prefix "0x" s = false.
Proof.
  destruct s as [|a [|b rest]]; cbn [String.prefix]; try discriminate.
  - intros _. now destruct (ascii_dec "0" a).
  - intros H. destruct (ascii_dec "0" a); [|reflexivity].
    destruct (ascii_dec "x" b) as [<-|]; [|reflexivity].
    cbn [is_decimal all_digits] in H.
    apply andb_true_iff in H as [_ H].
    apply andb_true_iff in H as [H _]. discriminate.
Qed.

Lemma decimal_is_string_not_Hex (s : string) :
  is_decimal s = true ->
  has_type (VString s) TString = true /\ has_type (VString s) Hex = false.
Proof.
  intros H. split; [reflexivity|].
  unfold Hex. cbn [has_type]. now apply decimal_not_0x.
Qed.

(** ** [PartialBy]: what the estimation request may leave out *)

Section PartialByFacts.

Variable fs : list field.
Variable K : list string.

(** Leaving out picked properties keeps an object of the full type
    assignable to the kept part [Omit<T, K>]. *)
Lemma omit_part_ok props (ks : list string) :
  forallb (fun x => mem x K) ks = true ->
  forallb (field_ok props) fs = true ->
  forallb (field_ok (without ks props)) (Omit fs K) = true.
Proof.
  intros Hsub Hall. apply forallb_forall. intros f Hf.
  apply filter_In in Hf as [Hin HnK]. apply negb_true_iff in HnK.
  rewrite forallb_forall in Hall. specialize (Hall f Hin).
  unfold field_ok in *. rewrite get_without.
  now rewrite (mem_subset _ _ _ Hsub HnK).
Qed.

(** ... and to the optional part [ExactPartial<Pick<T, K>>]. *)
Lemma partial_part_ok props (ks : list string) :
  forallb (field_ok props) fs = true ->
  forallb (field_ok (without ks props)) (ExactPartial (Pick fs K)) = true.
Proof.
  intros Hall. apply forallb_forall. intros g Hg.
  apply in_map_iff in Hg as [f [<- Hf]].
  apply filter_In in Hf as [Hin _].
  rewrite forallb_forall in Hall. specialize (Hall f Hin).
  unfold_field.
  rewrite get_without. destruct (mem (fst (fst f)) ks); [reflexivity|].
  destruct (get (fst (fst f)) props) as [x|]; [|reflexivity].
  simpl. apply orb_true_iff in Hall as [H|H].
  - now rewrite H.
  - apply andb_true_iff in H as [_ H]. rewrite H. now rewrite !orb_true_r.
Qed.

Lemma PartialBy_admits props (ks : list string) :
  forallb (fun x => mem x K) ks = true ->
  has_type (VObject props) (TObject fs) = true ->
  has_type (VObject (without ks props)) (PartialBy fs K) = true.
Proof.
  intros Hsub H. rewrite has_type_object in H.
  unfold PartialBy. rewrite has_type_intersection.
  apply andb_true_iff. split.
  - rewrite has_type_object. now apply omit_part_ok.
  - rewrite has_type_object. now apply partial_part_ok.
Qed.

(** A required property outside [K] stays required. *)
Lemma PartialBy_keeps_required props (f : field) :
  In f fs -> foptional f = false -> mem (fname f) K = false ->
  get (fname f) props = None ->
  has_type (VObject props) (PartialBy fs K) = false.
Proof.
  intros Hin Hreq HnK Hget.
  unfold PartialBy. rewrite has_type_intersection.
  apply andb_false_iff. left. rewrite has_type_object.
  destruct (forallb (field_ok props) (Omit fs K)) eqn:Hall; [|reflexivity].
  rewrite forallb_forall in Hall.
  assert (Hf : In f (Omit fs K)).
  { apply filter_In. split; [assumption|]. now rewrite HnK. }
  specialize (Hall f Hf). unfold field_ok in Hall.
  rewrite Hget in Hall. congruence.
Qed.

End PartialByFacts.

(** ** The method table *)

Section SchemaFacts.

Variable UserOperationFields : list field.
Variable ENTRYPOINT_ADDRESS_V06 : string.

Local Abbreviation schema :=
  (BundlerRpcSchema UserOperationFields ENTRYPOINT_ADDRESS_V06).
Local Abbreviation UserOperation := (UserOperationStruct UserOperationFields).
Local Abbreviation EntryPoint :=
  (ENTRYPOINT_ADDRESS_V06_TYPE ENTRYPOINT_ADDRESS_V06).
Local Abbreviation params_of :=
  (parameters UserOperationFields ENTRYPOINT_ADDRESS_V06).
Local Abbreviation returns_of :=
  (return_type UserOperationFields ENTRYPOINT_ADDRESS_V06).

(** Every entry of the schema is one of the eight declared signatures. *)
Lemma In_schema_cases (m : method) :
  In m schema ->
  Method m = "eth_sendUserOperation"
  \/ Method m = "eth_estimateUserOperationGas"
  \/ Method m = "eth_supportedEntryPoints"
  \/ Method m = "eth_chainId"
  \/ Method m = "eth_getUserOperationByHash"
  \/ Method m = "eth_getUserOperationReceipt"
  \/ Method m = "biconomy_getGasFeeValues"
  \/ Method m = "biconomy_getUserOperationStatus".
Proof.
  unfold BundlerRpcSchema. cbn [In].
  intros [<-|[<-|[<-|[<-|[<-|[<-|[<-|[<-|[]]]]]]]]]; cbn [Method]; tauto.
Qed.


(** C2. Whatever the properties of UserOperation are, a user operation
    stays acceptable as the first argument of eth_estimateUserOperationGas
    when any of callGasLimit, preVerificationGas and verificationGasLimit
    are left out: each on its own, any two, or all three, and the fields
    left out are absent from the request.  Every other required property
    of UserOperation is still required: a request without it is
    rejected. *)
Theorem estimate_accepts_user_operation_without_gas_limits
  (uo : list (string * value)) (omitted : list string) :
  has_type (VObject uo) UserOperation = true ->
  forallb
    (fun k =>
       mem k [ "callGasLimit"; "preVerificationGas"; "verificationGasLimit" ])
    omitted = true ->
  accepts (params_of "eth_estimateUserOperationGas")
    [ VObject (without omitted uo); VString ENTRYPOINT_ADDRESS_V06 ] = true
  /\ (forall k, In k omitted -> get k (without omitted uo) = None)
  /\ accepts (params_of "eth_estimateUserOperationGas")
       [ VObject (without [ "callGasLimit" ] uo);
         VString ENTRYPOINT_ADDRESS_V06 ] = true
  /\ accepts (params_of "eth_estimateUserOperationGas")
       [ VObject (without [ "preVerificationGas" ] uo);
         VString ENTRYPOINT_ADDRESS_V06 ] = true
  /\ accepts (params_of "eth_estimateUserOperationGas")
       [ VObject (without [ "verificationGasLimit" ] uo);
         VString ENTRYPOINT_ADDRESS_V06 ] = true
  /\ accepts (params_of "eth_estimateUserOperationGas")
       [ VObject
           (without
              [ "callGasLimit"; "preVerificationGas";
                "verificationGasLimit" ] uo);
         VString ENTRYPOINT_ADDRESS_V06 ] = true
  /\ has_type (VObject (without omitted uo))
       (PartialBy UserOperationFields
          [ "callGasLimit"; "preVerificationGas"; "verificationGasLimit" ])
     = true
  /\ (forall f props,
        In f UserOperationFields -> foptional f = false ->
        ~ In (fname f)
            [ "callGasLimit"; "preVerificationGas"; "verificationGasLimit" ] ->
        get (fname f) props = None ->
        accepts (params_of "eth_estimateUserOperationGas")
          [ VObject props; VString ENTRYPOINT_ADDRESS_V06 ] = false).
Proof.
  intros Huo Hsub.
  assert (Hgen : forall om,
            forallb (fun k => mem k EstimateOptionalKeys) om = true ->
            accepts (params_of "eth_estimateUserOperationGas")
              [ VObject (without om uo); VString ENTRYPOINT_ADDRESS_V06 ]
            = true).
  { intros om Hom.
    pose proof (PartialBy_admits UserOperationFields EstimateOptionalKeys
                  uo om Hom Huo) as Hadm.
    unfold parameters. cbn [lookup_method find BundlerRpcSchema Method
      String.eqb Ascii.eqb Bool.eqb Parameters accepts ptype poptional].
    rewrite Hadm. unfold ENTRYPOINT_ADDRESS_V06_TYPE. cbn [has_type].
    now rewrite String.eqb_refl. }
  split; [now apply Hgen|]. split.
  { intros k Hk. rewrite get_without.
    apply mem_In in Hk. now rewrite Hk. }
  split; [now apply Hgen|]. split; [now apply Hgen|].
  split; [now apply Hgen|]. split; [now apply Hgen|].
  split.
  { exact (PartialBy_admits UserOperationFields EstimateOptionalKeys
             uo omitted Hsub Huo). }
  intros f props Hin Hreq HnK Hget.
  assert (Hmem : mem (fname f) EstimateOptionalKeys = false).
  { destruct (mem (fname f) EstimateOptionalKeys) eqn:Hm; [|reflexivity].
    apply mem_In in Hm. contradiction. }
  pose proof (PartialBy_keeps_required UserOperationFields
                EstimateOptionalKeys props f Hin Hreq Hmem Hget) as Hrej.
  unfold parameters. cbn [lookup_method find BundlerRpcSchema Method
    String.eqb Ascii.eqb Bool.eqb Parameters accepts ptype poptional].
  now rewrite Hrej.
Qed.

(** C4. eth_estimateUserOperationGas takes a StateOverrides as its third
    parameter, and that parameter is optional: a request is accepted with
    it, with undefined in its place, or without it.  No parameter of any
    other method of the schema has the type StateOverrides. *)
Theorem StateOverrides_only_on_estimation :
  nth_error (params_of "eth_estimateUserOperationGas") 2
    = Some (mkParam "stateOverrides" true StateOverrides)
  /\ (forall a b,
        accepts (params_of "eth_estimateUserOperationGas") [a; b; VUndefined]
        = accepts (params_of "eth_estimateUserOperationGas") [a; b])
  /\ (forall a b so,
        has_type so StateOverrides = true ->
        accepts (params_of "eth_estimateUserOperationGas") [a; b; so]
        = accepts (params_of "eth_estimateUserOperationGas") [a; b])
  /\ (forall m p,
        In m schema -> In p (Parameters m) -> ptype p = StateOverrides ->
        Method m = "eth_estimateUserOperationGas"
        /\ pname p = "stateOverrides" /\ poptional p = true).
Proof.
  split; [reflexivity|]. split; [|split].
  - intros a b. unfold parameters.
    cbn [lookup_method find BundlerRpcSchema Method String.eqb Ascii.eqb
      Bool.eqb Parameters accepts ptype poptional is_undefined].
    destruct (has_type a _), (has_type b _), (has_type VUndefined _);
      reflexivity.
  - intros a b so Hso. unfold parameters.
    cbn [lookup_method find BundlerRpcSchema Method String.eqb Ascii.eqb
      Bool.eqb Parameters accepts ptype poptional].
    rewrite Hso. destruct (has_type a _), (has_type b _); reflexivity.
  - intros m p Hm Hp Hty. unfold BundlerRpcSchema in Hm. cbn [In] in Hm.
    destruct Hm as [<-|[<-|[<-|[<-|[<-|[<-|[<-|[<-|[]]]]]]]]];
      cbn [Parameters In] in Hp;
      repeat match goal with
             | H : _ \/ _ |- _ => destruct H as [H|H]
             | H : False |- _ => destruct H
             end;
      subst p; cbn [ptype pname poptional Method] in *;
      try discriminate Hty; auto.
Qed.

End SchemaFacts.

(** ** Objects against object types *)

Lemma object_field props (fs : list field) (f : field) :
  has_type (VObject props) (TObject fs) = true -> In f fs ->
  field_ok props f = true.
Proof.
  rewrite has_type_object, forallb_forall. auto.
Qed.

(** An object that lacks a required property is rejected. *)
Lemma object_missing_required props (fs : list field) (f : field) :
  In f fs -> foptional f = false -> get (fname f) props = None ->
  has_type (VObject props) (TObject fs) = false.
Proof.
  intros Hin Hreq Hget.
  destruct (has_type (VObject props) (TObject fs)) eqn:H; [|reflexivity].
  apply (object_field _ _ f) in H; [|assumption].
  unfold field_ok in H. rewrite Hget in H. congruence.
Qed.

(** An object holding a value of the wrong type in a declared property is
    rejected, except for [undefined] in an optional property. *)
Lemma object_wrong_property props (fs : list field) (f : field) (x : value) :
  In f fs -> get (fname f) props = Some x ->
  has_type x (ftype f) = false -> is_undefined x = false ->
  has_type (VObject props) (TObject fs) = false.
Proof.
  intros Hin Hget Hty Hun.
  destruct (has_type (VObject props) (TObject fs)) eqn:H; [|reflexivity].
  apply (object_field _ _ f) in H; [|assumption].
  unfold field_ok in H. rewrite Hget, Hty, Hun in H.
  now rewrite andb_false_r in H.
Qed.

(** Splits the assignability of a value to a literal object type into the
    facts about its declared properties. *)
Ltac invert_object H props :=
  apply has_type_object_inv in H as [props [-> H]];
  cbn [forallb] in H;
  repeat (let F := fresh "F" in apply andb_true_iff in H as [F H]);
  clear H;
  repeat match goal with
         | F : field_ok _ (_, false, TString) = true |- _ =>
             let s := fresh "s" in apply required_string in F as [s F]
         | F : field_ok _ (_, false, Hex) = true |- _ =>
             let s := fresh "h" in apply required_Hex in F as [s F]
         | F : field_ok _ (_, false, Hash) = true |- _ =>
             let s := fresh "h" in apply required_Hex in F as [s F]
         end.

(** ** The return shape of eth_estimateUserOperationGas *)

(** C3, as the declaration has it.  The return shape of
    eth_estimateUserOperationGas declares exactly the five properties
    preVerificationGas, verificationGasLimit, callGasLimit,
    maxPriorityFeePerGas and maxFeePerGas, each of type string.  In every
    response of that shape the four properties other than callGasLimit are
    present and hold strings; callGasLimit may be left out, and it is the
    only one: a response lacking one of the other four is rejected.  The
    quantities travel as strings, whatever the strings are: any four
    strings make a response, and a JavaScript number in one of the five
    properties is rejected. *)
Theorem EstimateGasReturn_shape :
  map (fun f => (fname f, ftype f)) (fields_of EstimateGasReturn)
    = [ ("preVerificationGas", TString); ("verificationGasLimit", TString);
        ("callGasLimit", TString); ("maxPriorityFeePerGas", TString);
        ("maxFeePerGas", TString) ]
  /\ map fname (filter foptional (fields_of EstimateGasReturn))
     = [ "callGasLimit" ]
  /\ (forall v,
        has_type v EstimateGasReturn = true ->
        exists props a b c d,
          v = VObject props
          /\ get "preVerificationGas" props = Some (VString a)
          /\ get "verificationGasLimit" props = Some (VString b)
          /\ get "maxPriorityFeePerGas" props = Some (VString c)
          /\ get "maxFeePerGas" props = Some (VString d)
          /\ (get "callGasLimit" props = None
              \/ get "callGasLimit" props = Some VUndefined
              \/ exists e, get "callGasLimit" props = Some (VString e)))
  /\ (forall props,
        has_type (VObject props) EstimateGasReturn = true ->
        has_type (VObject (without ["callGasLimit"] props))
          EstimateGasReturn = true)
  /\ (forall a b c d,
        has_type
          (VObject [ ("preVerificationGas", VString a);
                     ("verificationGasLimit", VString b);
                     ("maxPriorityFeePerGas", VString c);
                     ("maxFeePerGas", VString d) ])
          EstimateGasReturn = true)
  /\ (forall props name,
        In name [ "preVerificationGas"; "verificationGasLimit";
                  "maxPriorityFeePerGas"; "maxFeePerGas" ] ->
        get name props = None ->
        has_type (VObject props) EstimateGasReturn = false)
  /\ (forall props name n,
        In name [ "preVerificationGas"; "verificationGasLimit";
                  "callGasLimit"; "maxPriorityFeePerGas"; "maxFeePerGas" ] ->
        get name props = Some (VNumber n) ->
        has_type (VObject props) EstimateGasReturn = false).
Proof.
  split; [reflexivity|]. split; [reflexivity|].
  split; [|split; [|split; [|split]]].
  - intros v H. unfold EstimateGasReturn in H.
    apply has_type_object_inv in H as [props [-> H]].
    cbn [forallb] in H.
    apply andb_true_iff in H as [F1 H]. apply andb_true_iff in H as [F2 H].
    apply andb_true_iff in H as [F3 H]. apply andb_true_iff in H as [F4 H].
    apply andb_true_iff in H as [F5 _].
    apply required_string in F1 as [a F1].
    apply required_string in F2 as [b F2].
    apply required_string in F4 as [c F4].
    apply required_string in F5 as [d F5].
    exists props, a, b, c, d. repeat (split; [assumption || reflexivity|]).
    unfold_field. destruct (get "callGasLimit" props) as [x|]; [|now left].
    right. destruct x; try discriminate F3; [now left|right; now exists s].
  - intros props H. unfold EstimateGasReturn in *.
    rewrite has_type_object in *. cbn [forallb] in *.
    unfold_field. rewrite !get_without.
    cbn [mem existsb String.eqb Ascii.eqb Bool.eqb orb negb] in *.
    apply andb_true_iff in H as [F1 H]. apply andb_true_iff in H as [F2 H].
    apply andb_true_iff in H as [_ H].
    now rewrite F1, F2, H.
  - intros a b c d. reflexivity.
  - intros props name Hin Hget. unfold EstimateGasReturn.
    apply (object_missing_required props _ (name, false, TString));
      [|reflexivity|exact Hget].
    cbn [In] in *. intuition (subst; auto).
  - intros props name n Hin Hget. unfold EstimateGasReturn.
    cbn [In] in Hin.
    destruct Hin as [<-|[<-|[<-|[<-|[<-|[]]]]]];
      match goal with
      | |- has_type _ (TObject ?fs) = false =>
          match type of Hget with
          | get ?k _ = _ =>
              match fs with
              | context [(k, ?o, ?t)] =>
                  apply (object_wrong_property props fs (k, o, t)
                           (VNumber n));
                  [cbn [In]; tauto | exact Hget | reflexivity | reflexivity]
              end
          end
      end.
Qed.

(** ** The error envelope and the submission response *)

Lemma required_number props (name : string) :
  field_ok props (name, false, TNumber) = true ->
  exists n, get name props = Some (VNumber n).
Proof.
  unfold_field; simpl. destruct (get name props) as [x|]; [|discriminate].
  rewrite orb_false_r. destruct x; try discriminate. now exists n.
Qed.

Lemma required_any props (name : string) :
  field_ok props (name, false, TAny) = true ->
  exists x, get name props = Some x.
Proof.
  unfold_field. destruct (get name props) as [x|]; [|discriminate].
  intros _. now exists x.
Qed.

Lemma required_literal props (name l : string) :
  field_ok props (name, false, TLiteral l) = true ->
  get name props = Some (VString l).
Proof.
  unfold_field; simpl. destruct (get name props) as [x|]; [|discriminate].
  rewrite orb_false_r. destruct x; try discriminate.
  intros H. apply String.eqb_eq in H. now subst.
Qed.

(** C6, as the declaration has it.  The code of a JsonRpcError is a string:
    every error envelope is an object whose code and message hold strings
    and whose data is present (any value); any string code with any message
    and data makes an envelope; and an object whose code is a number is not
    a JsonRpcError. *)
Theorem JsonRpcError_code_is_string :
  (forall v,
     has_type v JsonRpcError = true ->
     exists props c m d,
       v = VObject props
       /\ get "code" props = Some (VString c)
       /\ get "message" props = Some (VString m)
       /\ get "data" props = Some d)
  /\ (forall c m d,
        has_type
          (VObject [ ("code", VString c); ("message", VString m);
                     ("data", d) ])
          JsonRpcError = true)
  /\ (forall props n,
        get "code" props = Some (VNumber n) ->
        has_type (VObject props) JsonRpcError = false).
Proof.
  split; [|split].
  - intros v H. unfold JsonRpcError in H. invert_object H props.
    match goal with
    | F : field_ok _ (_, false, TAny) = true |- _ =>
        apply required_any in F as [d F]
    end.
    do 4 eexists. repeat split; eassumption.
  - intros c m d. reflexivity.
  - intros props n Hget. unfold JsonRpcError.
    apply (object_wrong_property props _ ("code", false, TString)
             (VNumber n)); [cbn [In]; tauto|exact Hget| |]; reflexivity.
Qed.

(** C7, as the declaration has it.  In SendUserOpResponse the result is a
    required string and the error an optional JsonRpcError: every response
    holds jsonrpc, id and result, and its error is absent, undefined or an
    error envelope; a response without result is rejected, whether or not
    it holds an error; and result and error may stand together. *)
Theorem SendUserOpResponse_result_required :
  (forall v,
     has_type v SendUserOpResponse = true ->
     exists props j i r,
       v = VObject props
       /\ get "jsonrpc" props = Some (VString j)
       /\ get "id" props = Some (VNumber i)
       /\ get "result" props = Some (VString r)
       /\ (get "error" props = None
           \/ get "error" props = Some VUndefined
           \/ exists e, get "error" props = Some e
                        /\ has_type e JsonRpcError = true))
  /\ (forall props,
        get "result" props = None ->
        has_type (VObject props) SendUserOpResponse = false)
  /\ (forall j i r,
        has_type
          (VObject [ ("jsonrpc", VString j); ("id", VNumber i);
                     ("result", VString r) ])
          SendUserOpResponse = true)
  /\ (forall j i r e,
        has_type e JsonRpcError = true ->
        has_type
          (VObject [ ("jsonrpc", VString j); ("id", VNumber i);
                     ("result", VString r); ("error", e) ])
          SendUserOpResponse = true).
Proof.
  split; [|split; [|split]].
  - intros v H. unfold SendUserOpResponse in H. invert_object H props.
    match goal with
    | F : field_ok _ (_, false, TNumber) = true |- _ =>
        apply required_number in F as [i F]
    end.
    match goal with
    | F : field_ok _ ("error", _, _) = true |- _ => rename F into Ferr
    end.
    do 4 eexists. repeat (split; [reflexivity || eassumption|]).
    unfold_field. destruct (get "error" props) as [e|]; [|now left].
    right. apply orb_true_iff in Ferr as [Ferr|Ferr].
    + right. now exists e.
    + left. destruct e; try discriminate Ferr. reflexivity.
  - intros props Hget. unfold SendUserOpResponse.
    now apply (object_missing_required props _ ("result", false, TString));
      [cbn [In]; tauto| |].
  - intros j i r. reflexivity.
  - intros j i r e He. unfold SendUserOpResponse.
    rewrite has_type_object. cbn [forallb]. unfold_field.
    cbn [get String.eqb Ascii.eqb Bool.eqb]. rewrite He. reflexivity.
Qed.

(** ** The receipt *)

Lemma required_true_false props (name : string) :
  field_ok props (name, false, TUnion (TLiteral "true") (TLiteral "false"))
    = true ->
  exists s, get name props = Some (VString s) /\ (s = "true" \/ s = "false").
Proof.
  unfold_field. destruct (get name props) as [x|]; [|discriminate].
  rewrite orb_false_r. cbn [has_type].
  destruct x; try discriminate. intros H. exists s. split; [reflexivity|].
  apply orb_true_iff in H as [H|H]; apply String.eqb_eq in H; auto.
Qed.

(** C8, as the declaration has it.  In every UserOperationReceipt the
    success flag is one of the strings "true" and "false" and the reason is
    a string; the declaration does not tie one to the other: giving a
    receipt either flag together with any reason, empty or not, leaves it a
    UserOperationReceipt. *)
Theorem UserOpReceipt_success_and_reason_unrelated :
  (forall v,
     has_type v UserOpReceipt = true ->
     exists props s r,
       v = VObject props
       /\ get "success" props = Some (VString s)
       /\ (s = "true" \/ s = "false")
       /\ get "reason" props = Some (VString r))
  /\ (forall props s r,
        has_type (VObject props) UserOpReceipt = true ->
        s = "true" \/ s = "false" ->
        has_type
          (VObject (("success", VString s) :: ("reason", VString r) :: props))
          UserOpReceipt = true).
Proof.
  split.
  - intros v H. unfold UserOpReceipt in H. invert_object H props.
    match goal with
    | F : field_ok _ ("success", _, _) = true |- _ =>
        apply required_true_false in F as [f [F Hf]]
    end.
    exists props, f. eexists. repeat split; eassumption.
  - intros props s r H Hs. unfold UserOpReceipt in *.
    rewrite has_type_object in *. cbn [forallb] in *. unfold_field.
    cbn [get String.eqb Ascii.eqb Bool.eqb] in *.
    repeat (let F := fresh "F" in apply andb_true_iff in H as [F H]).
    repeat match goal with
           | F : _ = true |- _ => rewrite F; clear F
           end.
    destruct Hs as [-> | ->]; reflexivity.
Qed.

Lemma has_type_0x (t : string) : has_type (VString ("0x" ++ t)) Hex = true.
Proof.
  unfold Hex. cbn [has_type append String.prefix].
  destruct (ascii_dec "0" "0") as [_|N]; [|now elim N].
  destruct (ascii_dec "x" "x") as [_|N]; [|now elim N].
  now destruct t.
Qed.

(** C10, as the declarations have it.  In every UserOperationReceipt,
    actualGasCost and actualGasUsed hold 0x-prefixed strings (the type
    Hex), which are not decimal numeric strings: a decimal numeric string
    in either place makes the object no receipt.  The declaration checks
    the prefix only: any characters may follow 0x.  The quantities of the
    gas estimate and of the gas-fee oracle are declared as plain strings:
    a decimal numeric string is accepted there, and so is any other
    string. *)
Theorem UserOpReceipt_gas_quantities_are_Hex (v : value) :
  has_type v UserOpReceipt = true ->
  exists props cost used,
    v = VObject props
    /\ get "actualGasCost" props = Some (VString ("0x" ++ cost))
    /\ get "actualGasUsed" props = Some (VString ("0x" ++ used))
    /\ is_decimal ("0x" ++ cost) = false
    /\ is_decimal ("0x" ++ used) = false
    /\ (forall s,
          is_decimal s = true ->
          has_type (VObject (("actualGasCost", VString s) :: props))
            UserOpReceipt = false
          /\ has_type (VObject (("actualGasUsed", VString s) :: props))
               UserOpReceipt = false
          /\ has_type
               (VObject [ ("maxPriorityFeePerGas", VString s);
                          ("maxFeePerGas", VString s) ])
               GasFeeValues = true
          /\ has_type
               (VObject [ ("preVerificationGas", VString s);
                          ("verificationGasLimit", VString s);
                          ("callGasLimit", VString s);
                          ("maxPriorityFeePerGas", VString s);
                          ("maxFeePerGas", VString s) ])
               EstimateGasReturn = true)
    /\ (forall t u,
          has_type
            (VObject (("actualGasCost", VString ("0x" ++ t))
                      :: ("actualGasUsed", VString ("0x" ++ u)) :: props))
            UserOpReceipt = true)
    /\ (forall s,
          has_type
            (VObject [ ("maxPriorityFeePerGas", VString s);
                       ("maxFeePerGas", VString s) ])
            GasFeeValues = true
          /\ has_type
               (VObject [ ("preVerificationGas", VString s);
                          ("verificationGasLimit", VString s);
                          ("callGasLimit", VString s);
                          ("maxPriorityFeePerGas", VString s);
                          ("maxFeePerGas", VString s) ])
               EstimateGasReturn = true).
Proof.
  intros H. pose proof H as Hv.
  unfold UserOpReceipt in H. invert_object H props.
  do 3 eexists.
  repeat (split; [reflexivity || eassumption|]).
  split; [|split].
  - intros d Hd. apply decimal_is_string_not_Hex in Hd as [_ Hd].
    split; [|split; [|split; reflexivity]].
    + apply (object_wrong_property _ _ ("actualGasCost", false, Hex)
               (VString d));
        [cbn [In]; tauto|reflexivity|exact Hd|reflexivity].
    + apply (object_wrong_property _ _ ("actualGasUsed", false, Hex)
               (VString d));
        [cbn [In]; tauto|reflexivity|exact Hd|reflexivity].
  - intros t u. unfold UserOpReceipt in *.
    rewrite has_type_object in *. cbn [forallb] in *. unfold_field.
    cbn [get String.eqb Ascii.eqb Bool.eqb] in *.
    rewrite !has_type_0x.
    repeat (let G := fresh "G" in apply andb_true_iff in Hv as [G Hv]).
    repeat match goal with
           | G : _ = true |- _ => rewrite G; clear G
           end.
    reflexivity.
  - intros q. split; reflexivity.
Qed.

(** ** Lookups by hash, and the encoding of quantities *)

Section ReturnTypes.

Variable UserOperationFields : list field.
Variable ENTRYPOINT_ADDRESS_V06 : string.

Local Abbreviation UserOperation := (UserOperationStruct UserOperationFields).
Local Abbreviation returns_of :=
  (return_type UserOperationFields ENTRYPOINT_ADDRESS_V06).

Lemma return_type_ByHash :
  returns_of "eth_getUserOperationByHash"
  = TIntersection UserOperation
      (TObject
         (InclusionFields
            (ENTRYPOINT_ADDRESS_V06_TYPE ENTRYPOINT_ADDRESS_V06))).
Proof. reflexivity. Qed.

(** What every answer of eth_getUserOperationByHash holds. *)
Lemma ByHash_inv (v : value) :
  has_type v (returns_of "eth_getUserOperationByHash") = true ->
  has_type v UserOperation = true
  /\ exists props tx block number,
       v = VObject props
       /\ get "entryPoint" props = Some (VString ENTRYPOINT_ADDRESS_V06)
       /\ get "transactionHash" props = Some (VString ("0x" ++ tx))
       /\ get "blockHash" props = Some (VString ("0x" ++ block))
       /\ get "blockNumber" props = Some (VString ("0x" ++ number)).
Proof.
  rewrite return_type_ByHash, has_type_intersection.
  intros H. apply andb_true_iff in H as [Huo H]. split; [exact Huo|].
  unfold InclusionFields in H. invert_object H props.
  match goal with
  | F : field_ok _ ("entryPoint", _, _) = true |- _ =>
      apply required_literal in F
  end.
  do 4 eexists. repeat split; eassumption.
Qed.

(** C5, as the declarations have it.  The declared answers of
    eth_getUserOperationByHash and eth_getUserOperationReceipt are objects:
    the first is a UserOperation holding entryPoint, transactionHash,
    blockHash and blockNumber, the second a UserOperationReceipt with all
    its properties.  Neither declared type admits null or undefined. *)
Theorem lookups_by_hash_return_objects :
  (forall v,
     has_type v (returns_of "eth_getUserOperationByHash") = true ->
     has_type v UserOperation = true
     /\ exists props tx block number,
          v = VObject props
          /\ get "entryPoint" props = Some (VString ENTRYPOINT_ADDRESS_V06)
          /\ get "transactionHash" props = Some (VString ("0x" ++ tx))
          /\ get "blockHash" props = Some (VString ("0x" ++ block))
          /\ get "blockNumber" props = Some (VString ("0x" ++ number)))
  /\ (forall v,
        has_type v (returns_of "eth_getUserOperationReceipt") = true ->
        exists props,
          v = VObject props
          /\ forallb (fun f => match get (fname f) props with
                               | Some _ => true
                               | None => false
                               end) (fields_of UserOpReceipt) = true)
  /\ has_type VNull (returns_of "eth_getUserOperationByHash") = false
  /\ has_type VUndefined (returns_of "eth_getUserOperationByHash") = false
  /\ has_type VNull (returns_of "eth_getUserOperationReceipt") = false
  /\ has_type VUndefined (returns_of "eth_getUserOperationReceipt") = false.
Proof.
  split; [exact ByHash_inv|]. split.
  - intros v H. change (has_type v UserOpReceipt = true) in H.
    unfold UserOpReceipt in H.
    apply has_type_object_inv in H as [props [-> H]].
    exists props. split; [reflexivity|].
    rewrite forallb_forall in *. intros f Hf.
    specialize (H f Hf). cbn [fields_of In] in Hf.
    unfold field_ok in H.
    destruct (get (fname f) props); [reflexivity|].
    repeat (destruct Hf as [<-|Hf]; [discriminate H|]). destruct Hf.
  - rewrite return_type_ByHash, !has_type_intersection.
    repeat split; try reflexivity; apply andb_false_r.
Qed.

(** C9, as the declarations have it.  The encoding of quantities is not
    uniform.  The quantities of the gas estimate and of the gas-fee oracle
    are declared as plain strings: every answer holds them as strings, and
    any string is accepted there, a decimal numeric string as well as a
    0x-prefixed one.  The answer of eth_chainId and the blockNumber of
    eth_getUserOperationByHash are declared Hex: every value is a
    0x-prefixed string, and a decimal numeric string, which is never
    0x-prefixed, is rejected in either place. *)
Theorem numeric_encoding_differs_by_field :
  (forall v,
     has_type v (returns_of "eth_estimateUserOperationGas") = true ->
     exists props a b c d,
       v = VObject props
       /\ get "preVerificationGas" props = Some (VString a)
       /\ get "verificationGasLimit" props = Some (VString b)
       /\ get "maxPriorityFeePerGas" props = Some (VString c)
       /\ get "maxFeePerGas" props = Some (VString d))
  /\ (forall v,
        has_type v (returns_of "biconomy_getGasFeeValues") = true ->
        exists props a b,
          v = VObject props
          /\ get "maxPriorityFeePerGas" props = Some (VString a)
          /\ get "maxFeePerGas" props = Some (VString b))
  /\ (forall s,
        has_type
          (VObject [ ("preVerificationGas", VString s);
                     ("verificationGasLimit", VString s);
                     ("callGasLimit", VString s);
                     ("maxPriorityFeePerGas", VString s);
                     ("maxFeePerGas", VString s) ])
          (returns_of "eth_estimateUserOperationGas") = true
        /\ has_type
             (VObject [ ("maxPriorityFeePerGas", VString s);
                        ("maxFeePerGas", VString s) ])
             (returns_of "biconomy_getGasFeeValues") = true)
  /\ (forall s,
        is_decimal s = true ->
        String.prefix "0x" s = false
        /\ has_type (VString s) (returns_of "eth_chainId") = false
        /\ (forall props,
              get "blockNumber" props = Some (VString s) ->
              has_type (VObject props)
                (returns_of "eth_getUserOperationByHash") = false))
  /\ (forall v,
        has_type v (returns_of "eth_chainId") = true ->
        exists h, v = VString ("0x" ++ h))
  /\ (forall v,
        has_type v (returns_of "eth_getUserOperationByHash") = true ->
        exists props h,
          v = VObject props
          /\ get "blockNumber" props = Some (VString ("0x" ++ h))).
Proof.
  split; [|split; [|split; [|split; [|split]]]].
  - intros v H. change (has_type v EstimateGasReturn = true) in H.
    unfold EstimateGasReturn in H. invert_object H props.
    do 5 eexists. repeat split; eassumption.
  - intros v H. change (has_type v GasFeeValues = true) in H.
    unfold GasFeeValues in H. invert_object H props.
    do 3 eexists. repeat split; eassumption.
  - intros s. split; reflexivity.
  - intros s Hs. split; [now apply decimal_not_0x|].
    pose proof (decimal_is_string_not_Hex s Hs) as [_ Hhex].
    split; [exact Hhex|].
    intros props Hget. rewrite return_type_ByHash, has_type_intersection.
    apply andb_false_iff. right. unfold InclusionFields.
    apply (object_wrong_property _ _ ("blockNumber", false, Hex)
             (VString s)); [cbn [In]; tauto|exact Hget|exact Hhex|reflexivity].
  - intros v H. change (has_type v Hex = true) in H.
    now apply has_type_Hex_inv.
  - intros v H. apply ByHash_inv in H as [_ [props [tx [bl [n H]]]]].
    exists props, n. tauto.
Qed.

End ReturnTypes.

(** ** The declarations on concrete payloads *)

Example example_user_operation_ok :
  has_type (VObject example_user_operation)
    (UserOperationStruct UserOperationFields_spec) = true.
Proof. reflexivity. Qed.

Example send_needs_the_gas_limits :
  accepts
    (parameters UserOperationFields_spec ENTRYPOINT_ADDRESS_V06_example
       "eth_sendUserOperation")
    [ VObject (without EstimateOptionalKeys example_user_operation);
      VString ENTRYPOINT_ADDRESS_V06_example ] = false.
Proof. reflexivity. Qed.

Example estimate_with_state_overrides :
  accepts
    (parameters UserOperationFields_spec ENTRYPOINT_ADDRESS_V06_example
       "eth_estimateUserOperationGas")
    [ VObject (without EstimateOptionalKeys example_user_operation);
      VString ENTRYPOINT_ADDRESS_V06_example;
      VObject [ ("0xd8dA6BF26964aF9D7eEd9e03E53415D37aA96045",
                 VObject [ ("balance", VBigint 1000000000000000000%Z) ]) ] ]
  = true.
Proof. reflexivity. Qed.

(** The example user operation without callGasLimit, preVerificationGas
    and verificationGasLimit is an estimation request, and the three are
    absent from it. *)
Lemma estimate_accepts_example_without_gas_limits :
  let request :=
    without [ "callGasLimit"; "preVerificationGas"; "verificationGasLimit" ]
      example_user_operation in
  accepts
    (parameters UserOperationFields_spec ENTRYPOINT_ADDRESS_V06_example
       "eth_estimateUserOperationGas")
    [ VObject request; VString ENTRYPOINT_ADDRESS_V06_example ] = true
  /\ get "callGasLimit" request = None
  /\ get "preVerificationGas" request = None
  /\ get "verificationGasLimit" request = None
  /\ get "callGasLimit" example_user_operation = Some (VBigint 50000%Z).
Proof.
  cbv zeta.
  destruct (estimate_accepts_user_operation_without_gas_limits
              UserOperationFields_spec ENTRYPOINT_ADDRESS_V06_example
              example_user_operation
              [ "callGasLimit"; "preVerificationGas";
                "verificationGasLimit" ])
    as [H1 [H2 _]]; [reflexivity|reflexivity|].
  split; [exact H1|].
  split; [apply H2; left; reflexivity|].
  split; [apply H2; right; left; reflexivity|].
  split; [apply H2; right; right; left; reflexivity|reflexivity].
Defined.

(** The gas quantities of the example receipt are 0x-prefixed. *)
Lemma example_receipt_gas_quantities_are_Hex :
  exists props cost used,
    example_receipt "true" EmptyString = VObject props
    /\ get "actualGasCost" props = Some (VString ("0x" ++ cost))
    /\ get "actualGasUsed" props = Some (VString ("0x" ++ used)).
Proof.
  destruct (UserOpReceipt_gas_quantities_are_Hex
              (example_receipt "true" EmptyString))
    as [props [cost [used [H1 [H2 [H3 _]]]]]]; [reflexivity|].
  exists props, cost, used. repeat split; assumption.
Defined.

(** Neither null, undefined nor the empty object is an answer of
    eth_getUserOperationByHash or of eth_getUserOperationReceipt. *)
Lemma lookups_by_hash_reject_null :
  let byHash :=
    return_type UserOperationFields_spec ENTRYPOINT_ADDRESS_V06_example
      "eth_getUserOperationByHash" in
  let receipt :=
    return_type UserOperationFields_spec ENTRYPOINT_ADDRESS_V06_example
      "eth_getUserOperationReceipt" in
  has_type VNull byHash = false
  /\ has_type VUndefined byHash = false
  /\ has_type (VObject []) byHash = false
  /\ has_type VNull receipt = false
  /\ has_type VUndefined receipt = false
  /\ has_type (VObject []) receipt = false.
Proof. cbv zeta. repeat split; reflexivity. Qed.

(** The error envelope with the numeric code -32602 is no JsonRpcError; the
    same envelope with the code as a string is one. *)
Lemma numeric_error_code_rejected :
  has_type error_with_numeric_code JsonRpcError = false
  /\ has_type error_with_string_code JsonRpcError = true.
Proof. split; reflexivity. Qed.

(** A response with both a result and an error is a SendUserOpResponse; a
    failed response with the error alone is not. *)
Lemma result_and_error_together :
  has_type response_with_result_and_error SendUserOpResponse = true
  /\ has_type response_with_error_only SendUserOpResponse = false.
Proof. split; reflexivity. Qed.

(** A failed receipt with an empty reason and a successful receipt with a
    reason are both UserOperationReceipts. *)
Lemma failed_receipt_with_empty_reason :
  has_type (example_receipt "false" EmptyString) UserOpReceipt = true
  /\ has_type (example_receipt "true" "execution reverted") UserOpReceipt
     = true.
Proof. split; reflexivity. Qed.

(** A gas estimate whose four required properties hold the empty string
    and a word is of the declared return shape. *)
Lemma estimate_admits_strings_that_are_no_numerals :
  has_type estimate_without_numerals EstimateGasReturn = true
  /\ is_decimal EmptyString = false
  /\ is_decimal "unknown" = false.
Proof. repeat split; reflexivity. Qed.

(** Fee values written as 0x-prefixed hexadecimal are GasFeeValues, and an
    answer of the gas-fee oracle. *)
Lemma fee_values_admit_hex :
  has_type fee_values_in_hex
    (return_type UserOperationFields_spec ENTRYPOINT_ADDRESS_V06_example
       "biconomy_getGasFeeValues") = true
  /\ String.prefix "0x" "0x3b9aca00" = true
  /\ is_decimal "0x3b9aca00" = false.
Proof. repeat split; reflexivity. Qed.

(** ** How the declarations of [types.ts] fit together *)

Lemma without_nothing props : without [] props = props.
Proof.
  unfold without. induction props as [|kv rest IH]; [reflexivity|].
  change (kv :: filter (fun kv => negb (mem (fst kv) [])) rest = kv :: rest).
  f_equal. exact IH.
Qed.

Lemma has_type_Hex_0x (h : string) :
  has_type (VString ("0x" ++ h)) Hex = true.
Proof.
  unfold Hex. cbn [has_type append String.prefix].
  destruct (ascii_dec "0" "0") as [_|N]; [|now elim N].
  destruct (ascii_dec "x" "x") as [_|N]; [|now elim N].
  now destruct h.
Qed.

(** [T] is assignable to [PartialBy<T, K>], whatever the keys. *)
Lemma assignable_to_PartialBy (fs : list field) (K : list string) (v : value) :
  has_type v (TObject fs) = true -> has_type v (PartialBy fs K) = true.
Proof.
  intros H. destruct (has_type_object_inv v fs H) as [props [-> _]].
  rewrite <- (without_nothing props) at 1.
  now apply PartialBy_admits.
Qed.

(** An argument list is never longer than the parameter tuple, and it
    covers every required parameter. *)
Lemma accepts_arity (ps : list param) (args : list value) :
  accepts ps args = true ->
  (length (filter (fun p => negb (poptional p)) ps) <= length args
   /\ length args <= length ps)%nat.
Proof.
  revert args. induction ps as [|p ps IH]; intros [|a args] H;
    cbn [accepts] in H; try discriminate H.
  - cbn. lia.
  - apply andb_true_iff in H as [Hp H]. apply IH in H.
    cbn [filter length] in *. rewrite Hp. cbn [negb]. lia.
  - apply andb_true_iff in H as [_ H]. apply IH in H.
    cbn [filter length] in *. destruct (negb (poptional p)); cbn [length]; lia.
Qed.

Section SchemaComposition.

Variable UserOperationFields : list field.
Variable ENTRYPOINT_ADDRESS_V06 : string.

Local Abbreviation schema :=
  (BundlerRpcSchema UserOperationFields ENTRYPOINT_ADDRESS_V06).
Local Abbreviation UserOperation := (UserOperationStruct UserOperationFields).
Local Abbreviation params_of :=
  (parameters UserOperationFields ENTRYPOINT_ADDRESS_V06).
Local Abbreviation returns_of :=
  (return_type UserOperationFields ENTRYPOINT_ADDRESS_V06).

Lemma params_of_send :
  params_of "eth_sendUserOperation"
  = [ mkParam "userOperation" false UserOperation;
      mkParam "entryPointAddress" false
        (ENTRYPOINT_ADDRESS_V06_TYPE ENTRYPOINT_ADDRESS_V06) ].
Proof. reflexivity. Qed.

Lemma params_of_estimate :
  params_of "eth_estimateUserOperationGas"
  = [ mkParam "userOperation" false
        (PartialBy UserOperationFields EstimateOptionalKeys);
      mkParam "entryPointAddress" false
        (ENTRYPOINT_ADDRESS_V06_TYPE ENTRYPOINT_ADDRESS_V06);
      mkParam "stateOverrides" true StateOverrides ].
Proof. reflexivity. Qed.

(** X1. Every argument list that eth_sendUserOperation accepts is accepted
    by eth_estimateUserOperationGas as well: a complete user operation can
    always be estimated. *)
Theorem submission_arguments_can_be_estimated (args : list value) :
  accepts (params_of "eth_sendUserOperation") args = true ->
  accepts (params_of "eth_estimateUserOperationGas") args = true.
Proof.
  rewrite params_of_send, params_of_estimate. intros H.
  pose proof (accepts_arity _ _ H) as [Hlo Hhi].
  cbn [filter poptional negb length] in Hlo, Hhi.
  destruct args as [|uo [|ep [|x rest]]]; cbn [length] in *; try lia.
  cbn [accepts ptype poptional] in *.
  rewrite !orb_false_r, !andb_true_r in *.
  apply andb_true_iff in H as [Huo Hep].
  apply (assignable_to_PartialBy _ EstimateOptionalKeys) in Huo.
  now rewrite Huo, Hep.
Qed.

(** X2. Every answer of eth_estimateUserOperationGas is also an answer of
    biconomy_getGasFeeValues: the estimate carries the two fee values. *)
Theorem estimate_answer_is_fee_values (v : value) :
  has_type v (returns_of "eth_estimateUserOperationGas") = true ->
  has_type v (returns_of "biconomy_getGasFeeValues") = true.
Proof.
  intros H. change (has_type v EstimateGasReturn = true) in H.
  change (has_type v GasFeeValues = true).
  unfold EstimateGasReturn in H.
  apply has_type_object_inv in H as [props [-> H]].
  unfold GasFeeValues. rewrite has_type_object.
  cbn [forallb] in *.
  repeat (let F := fresh "F" in apply andb_true_iff in H as [F H]).
  now rewrite F2, F3.
Qed.

(** X3. An answer of eth_getUserOperationByHash can be handed back, with
    the entry point address, to eth_sendUserOperation and to
    eth_estimateUserOperationGas. *)
Theorem found_operation_can_be_resubmitted (v : value) :
  has_type v (returns_of "eth_getUserOperationByHash") = true ->
  accepts (params_of "eth_sendUserOperation")
    [ v; VString ENTRYPOINT_ADDRESS_V06 ] = true
  /\ accepts (params_of "eth_estimateUserOperationGas")
       [ v; VString ENTRYPOINT_ADDRESS_V06 ] = true.
Proof.
  intros H.
  change (has_type v (TIntersection UserOperation
            (TObject (InclusionFields
               (ENTRYPOINT_ADDRESS_V06_TYPE ENTRYPOINT_ADDRESS_V06))))
          = true) in H.
  rewrite has_type_intersection in H. apply andb_true_iff in H as [H _].
  assert (Hep : has_type (VString ENTRYPOINT_ADDRESS_V06)
                  (ENTRYPOINT_ADDRESS_V06_TYPE ENTRYPOINT_ADDRESS_V06)
                = true).
  { unfold ENTRYPOINT_ADDRESS_V06_TYPE. cbn [has_type].
    apply String.eqb_refl. }
  rewrite params_of_send, params_of_estimate.
  cbn [accepts ptype poptional].
  rewrite (assignable_to_PartialBy _ EstimateOptionalKeys v H).
  now rewrite H, Hep.
Qed.

(** X4. Every method of the schema takes at least its required parameters
    and at most its declared ones: two or three for
    eth_estimateUserOperationGas, exactly two for eth_sendUserOperation (a
    third argument, state overrides included, is rejected), one for the
    lookups by hash and none for the others. *)
Theorem argument_counts (m : method) (args : list value) :
  In m schema -> accepts (Parameters m) args = true ->
  (length args <= 3)%nat
  /\ (Method m = "eth_sendUserOperation" -> length args = 2%nat)
  /\ (Method m = "eth_estimateUserOperationGas" ->
      length args = 2%nat \/ length args = 3%nat)
  /\ (Method m = "eth_getUserOperationByHash"
      \/ Method m = "eth_getUserOperationReceipt"
      \/ Method m = "biconomy_getUserOperationStatus" ->
      length args = 1%nat)
  /\ (Method m = "eth_supportedEntryPoints" \/ Method m = "eth_chainId"
      \/ Method m = "biconomy_getGasFeeValues" ->
      args = []).
Proof.
  intros Hm Hacc. apply accepts_arity in Hacc.
  unfold BundlerRpcSchema in Hm. cbn [In] in Hm.
  destruct Hm as [<-|[<-|[<-|[<-|[<-|[<-|[<-|[<-|[]]]]]]]]];
    cbn [Parameters Method filter poptional negb length] in *;
    refine (conj _ (conj _ (conj _ (conj _ _)))); try lia; intros H;
    repeat match goal with
           | H : _ \/ _ |- _ => destruct H as [H|H]
           end;
    try discriminate H; try lia;
    (destruct args; [reflexivity|cbn [length] in *; lia]).
Qed.

(** X5. The three lookups by hash accept exactly the argument lists made
    of one 0x-prefixed string. *)
Theorem lookups_take_one_hash (name : string) (args : list value) :
  In name [ "eth_getUserOperationByHash"; "eth_getUserOperationReceipt";
            "biconomy_getUserOperationStatus" ] ->
  (accepts (params_of name) args = true <->
   exists h, args = [ VString ("0x" ++ h) ]).
Proof.
  cbn [In]. intros [<-|[<-|[<-|[]]]];
    (change (params_of _) with [ mkParam "hash" false Hash ]
     || change (params_of _) with [ mkParam "userOpHash" false Hash ]);
    (split;
     [ intros H; pose proof (accepts_arity _ _ H) as [Hlo Hhi];
       destruct args as [|a [|b rest]]; cbn [length filter poptional negb] in *;
       try lia;
       cbn [accepts ptype poptional] in H;
       rewrite orb_false_r, andb_true_r in H;
       apply has_type_Hex_inv in H as [h ->]; now exists h
     | intros [h ->]; cbn [accepts ptype poptional];
       change Hash with Hex; now rewrite has_type_Hex_0x ]).
Qed.

End SchemaComposition.

(** ** State overrides, status and the estimation parameters *)

(** An optional property, when the object has it, holds a value of the
    declared type or [undefined]. *)
Lemma optional_field props (name : string) (t : ty) (x : value) :
  field_ok props (name, true, t) = true -> get name props = Some x ->
  has_type x t = true \/ x = VUndefined.
Proof.
  unfold_field. intros H Hget. rewrite Hget in H.
  apply orb_true_iff in H as [H|H]; [now left|right].
  now destruct x.
Qed.

Lemma has_type_indexed props (k e : ty) :
  has_type (VObject props) (TIndexed k e)
  = forallb (fun kv => negb (has_type (VString (fst kv)) k)
                       || has_type (snd kv) e) props.
Proof. reflexivity. Qed.

(** A map from Hex slots to Hex values. *)
Lemma slots_inv (x : value) :
  has_type x (TIndexed Hex Hex) = true ->
  exists slots,
    x = VObject slots
    /\ forall slot v,
         In (slot, v) slots -> String.prefix "0x" slot = true ->
         exists h, v = VString ("0x" ++ h).
Proof.
  destruct x; try discriminate. rewrite has_type_indexed, forallb_forall.
  intros H. exists props. split; [reflexivity|].
  intros slot v Hin Hslot. specialize (H _ Hin). cbn [fst snd] in H.
  assert (Hk : has_type (VString slot) Hex = true) by exact Hslot.
  rewrite Hk in H. cbn [negb orb] in H. now apply has_type_Hex_inv.
Qed.

(** X6. In a StateOverrides map every entry is an object whose balance,
    when given, is a bigint (not a number, not a hex string), whose nonce
    is a bigint or a number, whose code is a 0x-prefixed string, and whose
    state and stateDiff are objects that map 0x-prefixed slots to
    0x-prefixed strings; undefined is allowed in each place. *)
Theorem StateOverrides_entries props (address : string) (entry : value) :
  has_type (VObject props) StateOverrides = true ->
  In (address, entry) props ->
  exists fields,
    entry = VObject fields
    /\ (forall x, get "balance" fields = Some x ->
          x = VUndefined \/ exists n, x = VBigint n)
    /\ (forall x, get "nonce" fields = Some x ->
          x = VUndefined \/ (exists n, x = VBigint n)
          \/ exists n, x = VNumber n)
    /\ (forall x, get "code" fields = Some x ->
          x = VUndefined \/ exists h, x = VString ("0x" ++ h))
    /\ (forall name x,
          name = "state" \/ name = "stateDiff" ->
          get name fields = Some x ->
          x = VUndefined
          \/ exists slots,
               x = VObject slots
               /\ forall slot v,
                    In (slot, v) slots -> String.prefix "0x" slot = true ->
                    exists h, v = VString ("0x" ++ h)).
Proof.
  unfold StateOverrides. rewrite has_type_indexed, forallb_forall.
  intros H Hin. specialize (H _ Hin). cbn [fst snd has_type negb orb] in H.
  change (has_type entry
            (TObject
               [ ("balance", true, TUnion TBigint TUndefined);
                 ("nonce", true, TUnion TBigint (TUnion TNumber TUndefined));
                 ("code", true, TUnion Hex TUndefined);
                 ("state", true, TIndexed Hex Hex);
                 ("stateDiff", true, TIndexed Hex Hex) ]) = true) in H.
  apply has_type_object_inv in H as [fields [-> H]].
  cbn [forallb] in H.
  apply andb_true_iff in H as [Fb H]. apply andb_true_iff in H as [Fn H].
  apply andb_true_iff in H as [Fc H]. apply andb_true_iff in H as [Fs H].
  apply andb_true_iff in H as [Fd _].
  exists fields. split; [reflexivity|]. repeat split.
  - intros x Hx. destruct (optional_field _ _ _ _ Fb Hx) as [Ht| ->];
      [|now left].
    destruct x; try discriminate Ht; [now left|right; now exists n].
  - intros x Hx. destruct (optional_field _ _ _ _ Fn Hx) as [Ht| ->];
      [|now left].
    destruct x; try discriminate Ht;
      [now left|right; right; now exists n|right; left; now exists n].
  - intros x Hx. destruct (optional_field _ _ _ _ Fc Hx) as [Ht| ->];
      [|now left].
    change (has_type x Hex || has_type x TUndefined = true) in Ht.
    apply orb_true_iff in Ht as [Ht|Ht].
    + right. now apply has_type_Hex_inv.
    + left. now destruct x.
  - intros name x [-> | ->] Hx.
    + destruct (optional_field _ _ _ _ Fs Hx) as [Ht| ->]; [|now left].
      right. now apply slots_inv.
    + destruct (optional_field _ _ _ _ Fd Hx) as [Ht| ->]; [|now left].
      right. now apply slots_inv.
Qed.

(** X7. Every UserOpStatus holds a state string, and any string is a state
    (also one that is no TStatus).  Its transactionHash and its
    userOperationReceipt may be missing; a receipt that is there is an
    answer of eth_getUserOperationReceipt, so that its gas quantities are
    0x-prefixed. *)
Theorem UserOpStatus_shape
  (UserOperationFields : list field) (ENTRYPOINT_ADDRESS_V06 : string) :
  (forall v,
     has_type v UserOpStatus = true ->
     exists props state,
       v = VObject props
       /\ get "state" props = Some (VString state)
       /\ forall r,
            get "userOperationReceipt" props = Some r -> r <> VUndefined ->
            has_type r
              (return_type UserOperationFields ENTRYPOINT_ADDRESS_V06
                 "eth_getUserOperationReceipt") = true
            /\ exists cost used,
                 get_prop r "actualGasCost" = VString ("0x" ++ cost)
                 /\ get_prop r "actualGasUsed" = VString ("0x" ++ used))
  /\ (forall state,
        has_type (VObject [ ("state", VString state) ]) UserOpStatus = true)
  /\ (exists state,
        has_type (VString state) TStatus = false
        /\ has_type (VObject [ ("state", VString state) ]) UserOpStatus
           = true).
Proof.
  split; [|split].
  - intros v H. unfold UserOpStatus in H.
    apply has_type_object_inv in H as [props [-> H]].
    cbn [forallb] in H.
    apply andb_true_iff in H as [Fs H]. apply andb_true_iff in H as [_ H].
    apply andb_true_iff in H as [Fr _].
    apply required_string in Fs as [state Fs].
    exists props, state. split; [reflexivity|]. split; [exact Fs|].
    intros r Hr Hdef.
    destruct (optional_field _ _ _ _ Fr Hr) as [Ht|Hu]; [|contradiction].
    split; [exact Ht|].
    unfold UserOpReceipt in Ht. invert_object Ht rprops.
    do 2 eexists. unfold get_prop, prop.
    split; match goal with
           | F : get ?k rprops = Some _ |- context [get ?k rprops] =>
               rewrite F; reflexivity
           end.
  - intros state. reflexivity.
  - exists "pending". split; reflexivity.
Qed.

(** X8. The exported EstimateUserOperationGasParameters asks for the whole
    UserOperation: a user operation that lacks one of its required gas
    limits is refused there, although eth_estimateUserOperationGas accepts
    it as its first parameter. *)
Theorem EstimateUserOperationGasParameters_needs_gas_limits
  (UserOperationFields : list field)
  (uo : list (string * value)) (omitted : list string) (f : field) :
  has_type (VObject uo) (UserOperationStruct UserOperationFields) = true ->
  forallb (fun k => mem k EstimateOptionalKeys) omitted = true ->
  In f UserOperationFields -> foptional f = false ->
  mem (fname f) omitted = true ->
  has_type (VObject [ ("userOperation", VObject (without omitted uo)) ])
    (EstimateUserOperationGasParameters UserOperationFields) = false
  /\ has_type (VObject (without omitted uo))
       (PartialBy UserOperationFields EstimateOptionalKeys) = true.
Proof.
  intros Huo Hsub Hin Hreq Hom. split.
  - unfold EstimateUserOperationGasParameters.
    rewrite has_type_object. cbn [forallb]. unfold field_ok at 1.
    cbn [fname foptional ftype fst snd get String.eqb Ascii.eqb Bool.eqb].
    rewrite andb_true_r, orb_false_r.
    apply (object_missing_required _ _ f Hin Hreq).
    now rewrite get_without, Hom.
  - now apply PartialBy_admits.
Qed.

(** ** [uninstallModules] *)

Section UninstallModules.

Variable X : collaborators.

Lemma bind_eq {A B : Type} (m : M A) (f : A -> M B) (log : list call) :
  bind m f log
  = match m log with
    | (Ok a, log') => f a log'
    | (Throw e, log') => (Throw e, log')
    end.
Proof. reflexivity. Qed.

Lemma external_eq (name : string) (f : collaborator) (args : list value)
  (log : list call) :
  external name f args log = (f log args, (log ++ [ mkCall name args ])%list).
Proof. reflexivity. Qed.

Lemma Forall_app_intro {A : Type} (P : A -> Prop) (l1 l2 : list A) :
  Forall P l1 -> Forall P l2 -> Forall P (l1 ++ l2)%list.
Proof. intros H1 H2. apply Forall_app. now split. Qed.

(** One module: the helpers are called in the order parseModuleTypeId,
    getAddress, encodeFunctionData; an exception of one of them is the
    outcome. *)
Lemma encodeFunctionData_call_ok (moduleTypeId address data : value) :
  encoding_call
    (mkCall "encodeFunctionData"
       [ VObject
           [ ("abi", uninstallModuleAbi);
             ("functionName", VString "uninstallModule");
             ("args",
               VArray
                 [ moduleTypeId; address;
                   nullish_coalesce data (VString "0x") ]) ] ]).
Proof.
  right. right. split; [reflexivity|].
  do 3 eexists. split; [reflexivity|].
  unfold nullish_coalesce.
  destruct (is_nullish data) eqn:Hd; [reflexivity|exact Hd].
Qed.

Lemma uninstallCall_spec (account module : value) (log : list call) :
  exists added,
    snd (uninstallCall X account module log) = (log ++ added)%list
    /\ Forall encoding_call added
    /\ (forall c,
          fst (uninstallCall X account module log) = Ok c ->
          length added = 3%nat /\ call_to_account account c)
    /\ (forall e,
          fst (uninstallCall X account module log) = Throw e ->
          e = TypeError \/ added <> []).
Proof.
  unfold uninstallCall.
  destruct (is_nullish module) eqn:Hn.
  { exists []. cbn [throw fst snd]. rewrite app_nil_r.
    split; [reflexivity|]. split; [constructor|]. split.
    - intros ? H; discriminate H.
    - intros e He. left. now injection He as <-. }
  unfold bind, external, ret.
  set (c1 := mkCall "parseModuleTypeId" [get_prop module "type"]).
  destruct (parseModuleTypeId X log _) as [id|e1].
  2:{ exists [c1]. cbn [fst snd].
      split; [reflexivity|]. split; [|split].
      - constructor; [now left|constructor].
      - intros ? H; discriminate H.
      - intros e _. now right. }
  set (c2 := mkCall "getAddress" [get_prop module "address"]).
  destruct (getAddress X (log ++ [c1])%list _) as [addr|e2].
  2:{ exists [c1; c2]. cbn [fst snd]. rewrite <- app_assoc.
      split; [reflexivity|]. split; [|split].
      - constructor; [now left|]. constructor; [right; now left|constructor].
      - intros ? H; discriminate H.
      - intros e _. now right. }
  match goal with
  | |- context [encodeFunctionData X ?l ?a] =>
      set (c3 := mkCall "encodeFunctionData" a);
      destruct (encodeFunctionData X l a) as [data|e3]
  end;
    exists [c1; c2; c3]; cbn [fst snd]; rewrite <- !app_assoc;
    (split; [reflexivity|]);
    (split;
     [ constructor; [now left|]; constructor; [right; now left|];
       constructor; [apply encodeFunctionData_call_ok|constructor] |]);
    split.
  - intros c Hc. injection Hc as <-.
    split; [reflexivity|]. split; reflexivity.
  - intros ? H; discriminate H.
  - intros ? H; discriminate H.
  - intros e _. now right.
Qed.

(** All modules, from left to right. *)
Lemma uninstallCalls_spec (account : value) (modules : list value)
  (log : list call) :
  exists added,
    snd (mapM (uninstallCall X account) modules log) = (log ++ added)%list
    /\ Forall encoding_call added
    /\ (forall calls,
          fst (mapM (uninstallCall X account) modules log) = Ok calls ->
          length calls = length modules
          /\ length added = (3 * length modules)%nat
          /\ Forall (call_to_account account) calls)
    /\ (forall e,
          fst (mapM (uninstallCall X account) modules log) = Throw e ->
          e = TypeError \/ added <> []).
Proof.
  revert log. induction modules as [|module rest IH]; intros log.
  { exists []. cbn [mapM ret fst snd]. rewrite app_nil_r.
    split; [reflexivity|]. split; [constructor|]. split.
    - intros calls H. injection H as <-. repeat split. constructor.
    - intros ? H; discriminate H. }
  cbn [mapM]. rewrite !bind_eq.
  destruct (uninstallCall_spec account module log)
    as [a1 [Hlog1 [Hcalls1 [Hok1 Hthrow1]]]].
  destruct (uninstallCall X account module log) as [[c|e] log1] eqn:Hrun;
    cbn [fst snd] in *; subst log1.
  2:{ exists a1. split; [reflexivity|]. split; [assumption|]. split.
      - intros ? H; discriminate H.
      - intros e' He'. injection He' as <-. now apply Hthrow1. }
  destruct (Hok1 c eq_refl) as [Hlen1 Hc].
  rewrite !bind_eq.
  destruct (IH (log ++ a1)%list) as [a2 [Hlog2 [Hcalls2 [Hok2 Hthrow2]]]].
  destruct (mapM (uninstallCall X account) rest (log ++ a1)%list)
    as [[cs|e] log2] eqn:Hrest; cbn [fst snd] in *; subst log2;
    exists (a1 ++ a2)%list; unfold ret; cbn [fst snd]; rewrite app_assoc;
    (split; [reflexivity|]);
    (split; [now apply Forall_app_intro|]); split.
  - intros calls H. injection H as <-.
    destruct (Hok2 cs eq_refl) as [Hl [Ha Hf]].
    split; [cbn [length]; now rewrite Hl|]. split.
    + rewrite length_app, Hlen1, Ha. cbn [length]. lia.
    + now constructor.
  - intros ? H; discriminate H.
  - intros ? H; discriminate H.
  - intros e' _. right. destruct a1; [discriminate Hlen1|discriminate].
Qed.

Lemma encoding_call_is_no_send (c : call) :
  encoding_call c -> called "sendUserOperation" c = false.
Proof.
  unfold called. intros [H|[H|[H _]]]; now rewrite H.
Qed.

Lemma encoding_calls_send_nothing (added : list call) :
  Forall encoding_call added ->
  existsb (called "sendUserOperation") added = false.
Proof.
  induction 1 as [|c rest Hc _ IH]; [reflexivity|].
  cbn [existsb]. now rewrite (encoding_call_is_no_send c Hc), IH.
Qed.

(** The four ways [uninstallModules] can go. *)
Lemma uninstallModules_cases (client parameters : list (string * value))
  (log : list call) :
  let account := parseAccount (resolve_account client parameters) in
  (truthy (resolve_account client parameters) = false
   /\ uninstallModules X client parameters log
      = (Throw (AccountNotFoundError "/docs/actions/wallet/sendTransaction"),
         log))
  \/ (truthy (resolve_account client parameters) = true
      /\ (forall modules, prop "modules" parameters <> VArray modules)
      /\ uninstallModules X client parameters log = (Throw TypeError, log))
  \/ (truthy (resolve_account client parameters) = true
      /\ exists modules added e,
           prop "modules" parameters = VArray modules
           /\ Forall encoding_call added
           /\ (e = TypeError \/ added <> [])
           /\ uninstallModules X client parameters log
              = (Throw e, (log ++ added)%list))
  \/ (truthy (resolve_account client parameters) = true
      /\ exists modules pre calls,
           prop "modules" parameters = VArray modules
           /\ Forall encoding_call pre
           /\ length pre = (3 * length modules)%nat
           /\ length calls = length modules
           /\ Forall (call_to_account account) calls
           /\ uninstallModules X client parameters log
              = (sendUserOperation X (log ++ pre)%list
                   [ VObject client;
                     uninstallRequest parameters account calls ],
                 (log ++ pre
                  ++ [ mkCall "sendUserOperation"
                         [ VObject client;
                           uninstallRequest parameters account calls ] ])
                 %list)).
Proof.
  cbv zeta. unfold uninstallModules.
  destruct (truthy (resolve_account client parameters)) eqn:Ht;
    cbn [negb]; [|left; split; reflexivity].
  right.
  destruct (prop "modules" parameters) as [| | | | | |modules|] eqn:Hm;
    try (left; split; [reflexivity|split; [discriminate|reflexivity]]).
  right. rewrite bind_eq.
  destruct (uninstallCalls_spec
              (parseAccount (resolve_account client parameters)) modules log)
    as [added [Hlog [Hcalls [Hok Hthrow]]]].
  destruct (mapM _ modules log) as [[calls|e] log1] eqn:Hrun;
    cbn [fst snd] in *; subst log1.
  - right. split; [reflexivity|].
    destruct (Hok calls eq_refl) as [Hl [Ha Hf]].
    exists modules, added, calls. unfold external.
    rewrite <- app_assoc. repeat (split; [reflexivity || assumption|]).
    reflexivity.
  - left. split; [reflexivity|]. exists modules, added, e.
    repeat (split; [reflexivity || assumption || now apply Hthrow|]).
    reflexivity.
Qed.

(** One module, with the calls it takes written out. *)
Lemma uninstallCall_trace (account module : value) (log : list call) :
  exists added,
    snd (uninstallCall X account module log) = (log ++ added)%list
    /\ Forall (fun c =>
                 callee c = "parseModuleTypeId" \/ callee c = "getAddress"
                 \/ exists moduleTypeId address,
                      c = encode_call module moduleTypeId address) added
    /\ (forall c,
          fst (uninstallCall X account module log) = Ok c ->
          exists moduleTypeId address data,
            added = module_calls module moduleTypeId address
            /\ c = VObject
                     [ ("to", get_prop account "address");
                       ("value", VBigint 0%Z);
                       ("data", data) ]).
Proof.
  unfold uninstallCall.
  destruct (is_nullish module) eqn:Hn.
  { exists []. cbn [throw fst snd]. rewrite app_nil_r.
    split; [reflexivity|]. split; [constructor|].
    intros ? H; discriminate H. }
  rewrite bind_eq, external_eq.
  destruct (parseModuleTypeId X log _) as [id|e1].
  2:{ eexists [_]. cbn [fst snd].
      split; [reflexivity|]. split.
      - constructor; [now left|constructor].
      - intros ? H; discriminate H. }
  rewrite bind_eq, external_eq.
  destruct (getAddress X _ _) as [addr|e2].
  2:{ eexists [_; _]. cbn [fst snd]. rewrite <- app_assoc.
      split; [reflexivity|]. split.
      - constructor; [now left|]. constructor; [right; now left|constructor].
      - intros ? H; discriminate H. }
  rewrite bind_eq, external_eq.
  destruct (encodeFunctionData X _ _) as [data|e3];
    exists (module_calls module id addr); cbn [fst snd ret];
    rewrite <- !app_assoc;
    (split; [reflexivity|]);
    (split;
     [ constructor; [now left|]; constructor; [right; now left|];
       constructor; [right; right; now exists id, addr|constructor] |]).
  - intros c Hc. injection Hc as <-. now exists id, addr, data.
  - intros ? H; discriminate H.
Qed.

(** All modules: on success the calls made are those of the modules, one
    module after the other, and the calls of the request follow the
    modules. *)
Lemma uninstallCalls_trace (account : value) (modules : list value)
  (log : list call) :
  exists added,
    snd (mapM (uninstallCall X account) modules log) = (log ++ added)%list
    /\ Forall (fun c =>
                 callee c = "parseModuleTypeId" \/ callee c = "getAddress"
                 \/ exists module moduleTypeId address,
                      In module modules
                      /\ c = encode_call module moduleTypeId address) added
    /\ (forall calls,
          fst (mapM (uninstallCall X account) modules log) = Ok calls ->
          exists steps : list (value * value * value),
            length steps = length modules
            /\ added
               = concat
                   (map (fun '((module, (moduleTypeId, address, data))
                         : value * (value * value * value)) =>
                           module_calls module moduleTypeId address)
                      (combine modules steps))
            /\ calls
               = map (fun '((moduleTypeId, address, data)
                         : value * value * value) =>
                        VObject
                          [ ("to", get_prop account "address");
                            ("value", VBigint 0%Z);
                            ("data", data) ])
                   steps).
Proof.
  revert log. induction modules as [|module rest IH]; intros log.
  { exists []. cbn [mapM ret fst snd]. rewrite app_nil_r.
    split; [reflexivity|]. split; [constructor|].
    intros calls H. injection H as <-. now exists []. }
  cbn [mapM]. rewrite !bind_eq.
  destruct (uninstallCall_trace account module log)
    as [a1 [Hlog1 [Hcalls1 Hok1]]].
  assert (Hcalls1' :
            Forall (fun c =>
                      callee c = "parseModuleTypeId"
                      \/ callee c = "getAddress"
                      \/ exists m moduleTypeId address,
                           In m (module :: rest)
                           /\ c = encode_call m moduleTypeId address) a1).
  { eapply Forall_impl; [|exact Hcalls1].
    intros c [H|[H|[id [addr H]]]]; [now left|right; now left|].
    right. right. exists module, id, addr. split; [now left|exact H]. }
  destruct (uninstallCall X account module log) as [[c|e] log1] eqn:Hrun;
    cbn [fst snd] in *; subst log1.
  2:{ exists a1. split; [reflexivity|]. split; [assumption|].
      intros ? H; discriminate H. }
  destruct (Hok1 c eq_refl) as [id [addr [data [-> ->]]]].
  rewrite !bind_eq.
  destruct (IH (log ++ module_calls module id addr)%list)
    as [a2 [Hlog2 [Hcalls2 Hok2]]].
  assert (Hcalls2' :
            Forall (fun c =>
                      callee c = "parseModuleTypeId"
                      \/ callee c = "getAddress"
                      \/ exists m moduleTypeId address,
                           In m (module :: rest)
                           /\ c = encode_call m moduleTypeId address) a2).
  { eapply Forall_impl; [|exact Hcalls2].
    intros c [H|[H|[m [i [a [Hin H]]]]]]; [now left|right; now left|].
    right. right. exists m, i, a. split; [now right|exact H]. }
  destruct (mapM (uninstallCall X account) rest _)
    as [[cs|e] log2] eqn:Hrest; cbn [fst snd] in *; subst log2;
    exists (module_calls module id addr ++ a2)%list; unfold ret;
    cbn [fst snd]; rewrite app_assoc;
    (split; [reflexivity|]);
    (split; [now apply Forall_app_intro|]).
  - intros calls H. injection H as <-.
    destruct (Hok2 cs eq_refl) as [steps [Hl [-> ->]]].
    exists ((id, addr, data) :: steps).
    split; [cbn [length]; now rewrite Hl|]. split; reflexivity.
  - intros ? H; discriminate H.
Qed.

(** X9. [uninstallModules] throws AccountNotFoundError, before it calls
    anything, exactly when neither the parameters nor the client give an
    account: when [parameters.account] is falsy, or, if it is undefined,
    when [client.account] is falsy.  An account among the parameters comes
    before the account of the client. *)
Theorem uninstallModules_account_not_found
  (client parameters : list (string * value)) :
  run (uninstallModules X client parameters)
  = (Throw (AccountNotFoundError "/docs/actions/wallet/sendTransaction"), [])
  <-> (if is_undefined (prop "account" parameters)
       then negb (truthy (prop "account" client))
       else negb (truthy (prop "account" parameters))) = true.
Proof.
  assert (Hres : truthy (resolve_account client parameters)
                 = negb (if is_undefined (prop "account" parameters)
                         then negb (truthy (prop "account" client))
                         else negb (truthy (prop "account" parameters)))).
  { unfold resolve_account, prop_or.
    destruct (prop "account" parameters); cbn [is_undefined];
      now rewrite negb_involutive. }
  unfold run.
  destruct (uninstallModules_cases client parameters [])
    as [[Ht H]|[[Ht [_ H]]|[[Ht [ms [added [e [_ [_ [He H]]]]]]]
       |[Ht [ms [pre [calls [_ [_ [_ [_ [_ H]]]]]]]]]]]];
    rewrite H; rewrite Hres in Ht;
    destruct (if is_undefined (prop "account" parameters) then _ else _);
    cbn [negb] in Ht; try discriminate Ht;
    split; intros G; try discriminate G; try reflexivity.
  - injection G as -> Hadded. destruct He as [He|He]; [discriminate He|].
    cbn [app] in Hadded. contradiction.
  - injection G as _ Hlog. cbn [app] in Hlog.
    destruct pre; discriminate Hlog.
Qed.


(** X11. When [uninstallModules] throws, either no user operation has been
    sent, or sending it was the last call and the exception is the one
    that [sendUserOperation] raised. *)
Theorem uninstallModules_failure_sends_nothing
  (client parameters : list (string * value)) (log log' : list call)
  (e : exn) :
  uninstallModules X client parameters log = (Throw e, log') ->
  (exists added,
     log' = (log ++ added)%list
     /\ existsb (called "sendUserOperation") added = false)
  \/ (exists pre request,
        log' = (log ++ pre
                ++ [ mkCall "sendUserOperation" [ VObject client; request ] ])
               %list
        /\ existsb (called "sendUserOperation") pre = false
        /\ sendUserOperation X (log ++ pre)%list [ VObject client; request ]
           = Throw e).
Proof.
  intros Hrun.
  destruct (uninstallModules_cases client parameters log)
    as [[Ht H]|[[Ht [_ H]]|[[Ht [ms [added [e' [_ [Hadd [He H]]]]]]]
       |[Ht [ms [pre [calls [Hm [Hpre [Hlen [Hcalls [Hto H]]]]]]]]]]]];
    rewrite H in Hrun.
  - injection Hrun as _ <-. left. exists []. now rewrite app_nil_r.
  - injection Hrun as _ <-. left. exists []. now rewrite app_nil_r.
  - injection Hrun as _ <-. left. exists added.
    split; [reflexivity|now apply encoding_calls_send_nothing].
  - injection Hrun as Hsend <-. right. do 2 eexists.
    split; [reflexivity|].
    split; [now apply encoding_calls_send_nothing|exact Hsend].
Qed.

(** X12. Whatever the outcome, every call of [encodeFunctionData] that
    [uninstallModules] makes is for one of the modules of the parameters;
    it passes the ABI of uninstallModule(uint256 moduleTypeId, address
    module, bytes deInitData), nonpayable and without outputs, the
    function name uninstallModule and three arguments, the last of which
    is the module's data, or 0x when the module has no data (none, null or
    undefined). *)
Theorem uninstallModules_encodes_uninstallModule
  (client parameters : list (string * value)) (c : call) :
  In c (snd (run (uninstallModules X client parameters))) ->
  callee c = "encodeFunctionData" ->
  let abi :=
    VArray
      [ VObject
          [ ("name", VString "uninstallModule");
            ("type", VString "function");
            ("stateMutability", VString "nonpayable");
            ("inputs",
              VArray
                [ VObject [ ("type", VString "uint256");
                            ("name", VString "moduleTypeId") ];
                  VObject [ ("type", VString "address");
                            ("name", VString "module") ];
                  VObject [ ("type", VString "bytes");
                            ("name", VString "deInitData") ] ]);
            ("outputs", VArray []) ] ] in
  exists modules module moduleTypeId address,
    prop "modules" parameters = VArray modules
    /\ In module modules
    /\ arguments c
       = [ VObject
             [ ("abi", abi);
               ("functionName", VString "uninstallModule");
               ("args",
                 VArray
                   [ moduleTypeId; address;
                     match get_prop module "data" with
                     | VUndefined | VNull => VString "0x"
                     | data => data
                     end ]) ] ].
Proof.
  unfold run. intros Hin Hc. cbv zeta.
  unfold uninstallModules in Hin.
  destruct (truthy (resolve_account client parameters));
    cbn [negb throw snd] in Hin; [|destruct Hin].
  destruct (prop "modules" parameters) as [| | | | | |modules|] eqn:Hm;
    try (cbn [throw snd] in Hin; destruct Hin).
  rewrite bind_eq in Hin.
  destruct (uninstallCalls_trace
              (parseAccount (resolve_account client parameters)) modules [])
    as [added [Hlog [Hall _]]].
  assert (Hadded : In c added ->
            exists modules0 module moduleTypeId address,
              VArray modules = VArray modules0
              /\ In module modules0
              /\ arguments c
                 = [ VObject
                       [ ("abi", uninstallModuleAbi);
                         ("functionName", VString "uninstallModule");
                         ("args",
                           VArray
                             [ moduleTypeId; address;
                               match get_prop module "data" with
                               | VUndefined | VNull => VString "0x"
                               | data => data
                               end ]) ] ]).
  { intros Hc'. rewrite Forall_forall in Hall.
    destruct (Hall c Hc') as [H|[H|[m [id [addr [Hm' ->]]]]]];
      [congruence|congruence|].
    exists modules, m, id, addr. split; [reflexivity|]. split; [exact Hm'|].
    cbn [encode_call arguments]. unfold nullish_coalesce.
    now destruct (get_prop m "data"). }
  destruct (mapM _ modules []) as [[calls|e] log1];
    cbn [fst snd app] in *; subst log1.
  - rewrite external_eq in Hin. cbn [snd] in Hin.
    apply in_app_or in Hin as [Hin|[<-|[]]]; [now apply Hadded|].
    discriminate Hc.
  - cbn [snd] in Hin. now apply Hadded.
Qed.

End UninstallModules.

(** ** [createNexusClient] *)

Lemma get_set_same (k : string) (v : value) props :
  get k (set k v props) = Some v.
Proof.
  induction props as [|[k' v'] rest IH]; cbn [set get].
  - now rewrite String.eqb_refl.
  - destruct (String.eqb k k') eqn:E; cbn [get].
    + now rewrite String.eqb_refl.
    + now rewrite E.
Qed.

Lemma get_set_other (k k' : string) (v : value) props :
  k' <> k -> get k' (set k v props) = get k' props.
Proof.
  intros Hne. apply String.eqb_neq in Hne.
  induction props as [|[k0 v0] rest IH]; cbn [set get].
  - now rewrite Hne.
  - destruct (String.eqb k k0) eqn:E; cbn [get].
    + apply String.eqb_eq in E. subst k0. now rewrite Hne.
    + now rewrite IH.
Qed.

(** What the bundler client is made from, as far as the five properties
    set by [createNexusClient] go. *)
Lemma bundlerClientConfig_set (parameters : list (string * value))
  (nexusAccount : value) :
  let config := bundlerClientConfig parameters nexusAccount in
  get "transport" config = Some (prop "bundlerTransport" parameters)
  /\ get "account" config = Some nexusAccount
  /\ get "name" config
     = Some (prop_or "name" parameters (VString "Nexus Client"))
  /\ get "key" config
     = Some (prop_or "key" parameters (VString "nexus client"))
  /\ get "chain" config = Some (resolve_chain parameters).
Proof.
  cbv zeta. unfold bundlerClientConfig.
  repeat split;
    repeat first [ apply get_set_same
                 | rewrite get_set_other by discriminate ].
Qed.

(** The properties other than those five come from the rest of the
    parameters. *)
Lemma bundlerClientConfig_rest (parameters : list (string * value))
  (nexusAccount : value) (k : string) :
  ~ In k [ "transport"; "account"; "name"; "key"; "chain" ] ->
  get k (bundlerClientConfig parameters nexusAccount)
  = if mem k createNexusClient_destructured then None else get k parameters.
Proof.
  intros Hk. unfold bundlerClientConfig. cbn [In] in Hk.
  rewrite !get_set_other by (intros ->; tauto).
  apply get_without.
Qed.

Section CreateNexusClient.

Variable X : collaborators.

(** X13. [createNexusClient] throws "Missing chain", before it calls
    anything, exactly when no chain can be found: when [parameters.chain]
    is defined, it alone counts (the chain of the client is not looked at),
    and when it is undefined the chain of [parameters.client] is taken, if
    there is a client. *)
Theorem createNexusClient_missing_chain
  (parameters : list (string * value)) :
  let chain := prop "chain" parameters in
  let client := prop "client" parameters in
  run (createNexusClient X parameters)
  = (Throw (Error "Missing chain"), [])
  <-> (if is_undefined chain
       then is_nullish client || negb (truthy (get_prop client "chain"))
       else negb (truthy chain)) = true.
Proof.
  cbv zeta. unfold run, createNexusClient.
  assert (Hres : truthy (resolve_chain parameters)
                 = negb (if is_undefined (prop "chain" parameters)
                         then is_nullish (prop "client" parameters)
                              || negb (truthy
                                   (get_prop (prop "client" parameters)
                                      "chain"))
                         else negb (truthy (prop "chain" parameters)))).
  { unfold resolve_chain, prop_or, nullish_coalesce, optional_chain.
    destruct (prop "chain" parameters) eqn:Hc; cbn [is_undefined is_nullish];
      try now rewrite negb_involutive.
    destruct (is_nullish (prop "client" parameters)); [reflexivity|].
    cbn [orb]. now rewrite negb_involutive. }
  rewrite Hres.
  destruct (if is_undefined (prop "chain" parameters) then _ else _);
    cbn [negb].
  - split; reflexivity.
  - rewrite bind_eq. unfold external at 1. cbn [app].
    split; [|discriminate].
    destruct (toNexusAccount X [] _); [|discriminate].
    rewrite bind_eq. unfold external at 1.
    destruct (createBicoBundlerClient X _ _); [|discriminate].
    rewrite bind_eq. unfold external at 1.
    destruct (erc7579Actions X _ _); [|discriminate].
    rewrite bind_eq. unfold external at 1.
    destruct (extend X _ _); [|discriminate].
    rewrite bind_eq. unfold external at 1.
    destruct (smartAccountActions X _ _); [|discriminate].
    rewrite bind_eq. unfold external at 1.
    destruct (extend X _ _); discriminate.
Qed.

(** X14. With a chain, [createNexusClient] first creates the account from
    the parameters.  If that fails, the failure is the outcome and nothing
    else is called.  Otherwise the bundler client is created next, once,
    with the account just created; the only calls after it are the two
    decorators and the two extensions, and when a client is returned they
    are erc7579Actions, extend, smartAccountActions and extend, in that
    order. *)
Theorem createNexusClient_account_then_bundler
  (parameters : list (string * value)) (log : list call) :
  truthy (resolve_chain parameters) = true ->
  let first :=
    mkCall "toNexusAccount" [ nexusAccountParameters X parameters ] in
  match toNexusAccount X log [ nexusAccountParameters X parameters ] with
  | Throw e =>
      createNexusClient X parameters log = (Throw e, (log ++ [ first ])%list)
  | Ok nexusAccount =>
      exists outcome rest,
        createNexusClient X parameters log
        = (outcome,
           (log
            ++ first
               :: mkCall "createBicoBundlerClient"
                    [ VObject (bundlerClientConfig parameters nexusAccount) ]
               :: rest)%list)
        /\ (exists more,
              (map callee rest ++ more)%list
              = [ "erc7579Actions"; "extend"; "smartAccountActions";
                  "extend" ])
        /\ (forall client,
              outcome = Ok client ->
              map callee rest
              = [ "erc7579Actions"; "extend"; "smartAccountActions";
                  "extend" ])
  end.
Proof.
  intros Ht. cbv zeta. unfold createNexusClient. rewrite Ht. cbn [negb].
  rewrite bind_eq, external_eq.
  destruct (toNexusAccount X log _) as [acc|e]; [|reflexivity].
  rewrite bind_eq, external_eq.
  destruct (createBicoBundlerClient X _ _) as [b|e].
  2:{ exists (Throw e), []. rewrite <- app_assoc. cbn [app map].
      split; [reflexivity|].
      split; [now eexists|intros ? H; discriminate H]. }
  rewrite bind_eq, external_eq.
  destruct (erc7579Actions X _ _) as [d1|e].
  2:{ eexists (Throw e), [_]. rewrite <- !app_assoc. cbn [app map callee].
      split; [reflexivity|].
      split; [now eexists|intros ? H; discriminate H]. }
  rewrite bind_eq, external_eq.
  destruct (extend X _ _) as [b1|e].
  2:{ eexists (Throw e), [_; _]. rewrite <- !app_assoc. cbn [app map callee].
      split; [reflexivity|].
      split; [now eexists|intros ? H; discriminate H]. }
  rewrite bind_eq, external_eq.
  destruct (smartAccountActions X _ _) as [d2|e].
  2:{ eexists (Throw e), [_; _; _]. rewrite <- !app_assoc.
      cbn [app map callee].
      split; [reflexivity|].
      split; [now eexists|intros ? H; discriminate H]. }
  rewrite bind_eq, external_eq.
  destruct (extend X _ _) as [b2|e].
  - eexists (Ok b2), [_; _; _; _]. unfold ret. rewrite <- !app_assoc.
    cbn [app map callee].
    split; [reflexivity|]. split; [now exists []|reflexivity].
  - eexists (Throw e), [_; _; _; _]. rewrite <- !app_assoc.
    cbn [app map callee].
    split; [reflexivity|].
    split; [now exists []|intros ? H; discriminate H].
Qed.

End CreateNexusClient.

(** X15. The bundler client is always made with the account that
    [createNexusClient] created (an account among the parameters is
    overwritten), with the bundler transport and with the chain the account
    was created for; its key and name are those of the parameters, or
    "nexus client" and "Nexus Client" when they are undefined.  The
    properties client, signer, index, accountName, accountKey,
    activeValidationModule, factoryAddress, k1ValidatorAddress and
    bundlerTransport are not handed on.  Every property of the parameters
    other than these nine and account, chain, key, name and transport,
    such as paymaster, paymasterContext, userOperation, pollingInterval,
    cacheTime or rpcSchema, is handed on unchanged. *)
Theorem bundlerClientConfig_routing
  (X : collaborators) (parameters : list (string * value))
  (nexusAccount : value) :
  let config := bundlerClientConfig parameters nexusAccount in
  get "account" config = Some nexusAccount
  /\ get "transport" config = Some (prop "bundlerTransport" parameters)
  /\ prop "chain" config
     = get_prop (nexusAccountParameters X parameters) "chain"
  /\ get "key" config
     = Some (if is_undefined (prop "key" parameters)
             then VString "nexus client"
             else prop "key" parameters)
  /\ get "name" config
     = Some (if is_undefined (prop "name" parameters)
             then VString "Nexus Client"
             else prop "name" parameters)
  /\ (forall k,
        In k [ "client"; "signer"; "index"; "accountName"; "accountKey";
               "activeValidationModule"; "factoryAddress";
               "k1ValidatorAddress"; "bundlerTransport" ] ->
        get k config = None)
  /\ (forall k,
        ~ In k [ "account"; "chain"; "key"; "name"; "transport";
                 "client"; "signer"; "index"; "accountName"; "accountKey";
                 "activeValidationModule"; "factoryAddress";
                 "k1ValidatorAddress"; "bundlerTransport" ] ->
        get k config = get k parameters)
  /\ (forall k,
        In k [ "paymaster"; "paymasterContext"; "userOperation";
               "pollingInterval"; "cacheTime"; "rpcSchema" ] ->
        get k config = get k parameters).
Proof.
  cbv zeta.
  destruct (bundlerClientConfig_set parameters nexusAccount)
    as [Ht [Ha [Hn [Hk Hc]]]].
  assert (Hrest : forall k,
            ~ In k [ "account"; "chain"; "key"; "name"; "transport";
                     "client"; "signer"; "index"; "accountName";
                     "accountKey"; "activeValidationModule";
                     "factoryAddress"; "k1ValidatorAddress";
                     "bundlerTransport" ] ->
            get k (bundlerClientConfig parameters nexusAccount)
            = get k parameters).
  { intros k Hnot. rewrite bundlerClientConfig_rest.
    - destruct (mem k createNexusClient_destructured) eqn:Hm; [|reflexivity].
      apply mem_In in Hm. exfalso. apply Hnot.
      cbn [In createNexusClient_destructured] in *. intuition auto.
    - intros Hin. apply Hnot. cbn [In] in *. intuition auto. }
  split; [exact Ha|]. split; [exact Ht|].
  split; [unfold prop at 1; now rewrite Hc|].
  split.
  { rewrite Hk. unfold prop_or. now destruct (prop "key" parameters). }
  split.
  { rewrite Hn. unfold prop_or. now destruct (prop "name" parameters). }
  split; [|split; [exact Hrest|]].
  - intros k Hin. rewrite bundlerClientConfig_rest.
    + cbn [In] in Hin.
      repeat (destruct Hin as [<-|Hin]; [reflexivity|]). destruct Hin.
    + cbn [In] in *.
      repeat (destruct Hin as [<-|Hin];
              [intros [H|[H|[H|[H|[H|[]]]]]]; discriminate H|]).
      destruct Hin.
  - intros k Hin. apply Hrest. cbn [In] in *.
    repeat (destruct Hin as [<-|Hin];
            [intros H;
             repeat (destruct H as [H|H]; [discriminate H|]); exact H|]).
    destruct Hin.
Qed.

(** ** The further properties on concrete payloads *)

Lemma example_submission_can_be_estimated :
  accepts
    (parameters UserOperationFields_spec ENTRYPOINT_ADDRESS_V06_example
       "eth_estimateUserOperationGas")
    [ VObject example_user_operation;
      VString ENTRYPOINT_ADDRESS_V06_example ] = true.
Proof.
  apply (submission_arguments_can_be_estimated UserOperationFields_spec
           ENTRYPOINT_ADDRESS_V06_example).
  reflexivity.
Defined.

Lemma example_estimate_is_fee_values :
  has_type example_estimate
    (return_type UserOperationFields_spec ENTRYPOINT_ADDRESS_V06_example
       "biconomy_getGasFeeValues") = true.
Proof.
  apply (estimate_answer_is_fee_values UserOperationFields_spec
           ENTRYPOINT_ADDRESS_V06_example).
  reflexivity.
Defined.

Lemma example_found_operation_can_be_resubmitted :
  accepts
    (parameters UserOperationFields_spec ENTRYPOINT_ADDRESS_V06_example
       "eth_sendUserOperation")
    [ example_found_operation; VString ENTRYPOINT_ADDRESS_V06_example ]
  = true.
Proof.
  apply (found_operation_can_be_resubmitted UserOperationFields_spec
           ENTRYPOINT_ADDRESS_V06_example example_found_operation).
  reflexivity.
Defined.

Lemma example_estimation_takes_two_or_three :
  length [ VObject example_user_operation;
           VString ENTRYPOINT_ADDRESS_V06_example ] = 2%nat
  \/ length [ VObject example_user_operation;
              VString ENTRYPOINT_ADDRESS_V06_example ] = 3%nat.
Proof.
  apply (argument_counts UserOperationFields_spec
           ENTRYPOINT_ADDRESS_V06_example
           (nth 1 (BundlerRpcSchema UserOperationFields_spec
                     ENTRYPOINT_ADDRESS_V06_example)
              (mkMethod EmptyString [] TAny))
           [ VObject example_user_operation;
             VString ENTRYPOINT_ADDRESS_V06_example ]).
  - right. left. reflexivity.
  - reflexivity.
  - reflexivity.
Defined.

(** The hash made of zeros is a well-formed argument of the receipt
    lookup. *)
Lemma zero_hash_is_a_lookup_argument :
  accepts
    (parameters UserOperationFields_spec ENTRYPOINT_ADDRESS_V06_example
       "eth_getUserOperationReceipt")
    [ VString
        "0x0000000000000000000000000000000000000000000000000000000000000000" ]
  = true.
Proof.
  apply (lookups_take_one_hash UserOperationFields_spec
           ENTRYPOINT_ADDRESS_V06_example "eth_getUserOperationReceipt").
  - right. left. reflexivity.
  - exists
      "0000000000000000000000000000000000000000000000000000000000000000".
    reflexivity.
Defined.

Lemma example_state_overrides_entry :
  exists fields,
    VObject
      [ ("balance", VBigint 1000000000000000000%Z);
        ("state", VObject [ ("0x00", VString "0x01") ]) ]
    = VObject fields.
Proof.
  destruct (StateOverrides_entries example_state_overrides
              "0xd8dA6BF26964aF9D7eEd9e03E53415D37aA96045"
              (VObject
                 [ ("balance", VBigint 1000000000000000000%Z);
                   ("state", VObject [ ("0x00", VString "0x01") ]) ]))
    as [fields [H _]].
  - reflexivity.
  - left. reflexivity.
  - exists fields. exact H.
Defined.

Lemma example_estimation_parameters_need_callGasLimit :
  has_type
    (VObject
       [ ("userOperation",
           VObject (without EstimateOptionalKeys example_user_operation)) ])
    (EstimateUserOperationGasParameters UserOperationFields_spec) = false.
Proof.
  apply (EstimateUserOperationGasParameters_needs_gas_limits
           UserOperationFields_spec example_user_operation
           EstimateOptionalKeys ("callGasLimit", false, TBigint)).
  - reflexivity.
  - reflexivity.
  - right. right. right. left. reflexivity.
  - reflexivity.
  - reflexivity.
Defined.


Lemma failing_uninstall_sends_nothing :
  existsb (called "sendUserOperation")
    (snd (run (uninstallModules example_collaborators example_client
                 failing_uninstall_parameters))) = false.
Proof.
  destruct (uninstallModules_failure_sends_nothing example_collaborators
              example_client failing_uninstall_parameters []
              (snd (run (uninstallModules example_collaborators
                           example_client failing_uninstall_parameters)))
              (Raised (VString "InvalidAddressError")))
    as [[added [H1 H2]]|[pre [request [H1 _]]]].
  - reflexivity.
  - reflexivity.
  - reflexivity.
Defined.

(** The first example module has no data: it is encoded with 0x. *)
Lemma example_uninstall_encodes_empty_data :
  let c :=
    nth 2 (snd (run (uninstallModules example_collaborators
                       example_client example_uninstall_parameters)))
      (mkCall EmptyString []) in
  (exists modules module moduleTypeId address,
     prop "modules" example_uninstall_parameters = VArray modules
     /\ In module modules
     /\ arguments c
        = [ VObject
              [ ("abi", uninstallModuleAbi);
                ("functionName", VString "uninstallModule");
                ("args",
                  VArray
                    [ moduleTypeId; address;
                      match get_prop module "data" with
                      | VUndefined | VNull => VString "0x"
                      | data => data
                      end ]) ] ])
  /\ arguments c
     = [ VObject
           [ ("abi", uninstallModuleAbi);
             ("functionName", VString "uninstallModule");
             ("args",
               VArray
                 [ VBigint 1%Z;
                   VString "0x663E709f60477f07885230E213b8149a7027239B";
                   VString "0x" ]) ] ].
Proof.
  cbv zeta. split; [|reflexivity].
  apply (uninstallModules_encodes_uninstallModule example_collaborators
           example_client example_uninstall_parameters).
  - right. right. left. reflexivity.
  - reflexivity.
Defined.

Lemma example_nexus_client_calls :
  exists outcome rest,
    createNexusClient example_collaborators example_nexus_parameters []
    = (outcome,
       mkCall "toNexusAccount"
         [ nexusAccountParameters example_collaborators
             example_nexus_parameters ]
       :: mkCall "createBicoBundlerClient"
            [ VObject
                (bundlerClientConfig example_nexus_parameters
                   (VObject
                      [ ("address",
                          VString
                            "0x99F3Bc8058503960364Ef3fDBF6407C9b0BbefCc")
                      ])) ]
       :: rest).
Proof.
  destruct (createNexusClient_account_then_bundler example_collaborators
              example_nexus_parameters [] eq_refl)
    as [outcome [rest [H _]]].
  exists outcome, rest. exact H.
Defined.

(** A receipt whose actualGasCost is 0x followed by words is a
    UserOperationReceipt although it is no hexadecimal numeral, and fee
    values written in hexadecimal, which are no base-10 strings, are
    GasFeeValues. *)
Lemma receipt_gas_need_not_be_a_numeral :
  has_type (receipt_with_gas "0xnot a hex number" "0x5208") UserOpReceipt
    = true
  /\ is_hex "0xnot a hex number" = false
  /\ is_hex "0x5208" = true
  /\ has_type fee_values_in_hex GasFeeValues = true
  /\ is_decimal "0x3b9aca00" = false.
Proof. repeat split; reflexivity. Qed.
